(** * pyPS4Controller: the controller state engine

    A shallow embedding of [pyPS4Controller/controller.py]: the
    [ControllerState] snapshot, the [Controller] object, the dispatch chain
    of [_handle_event], the record decoder [_unpack_event] and the
    [listen] loop with its liveness gate.

    Python objects are records updated functionally; the device file, the
    path polls and the requests of other threads are an explicit
    environment; what [listen] does to the outside world is recorded in a
    trace of actions. *)

From Stdlib Require Import String ZArith List Bool Lia.
From Stdlib.Strings Require Import Byte.
Import ListNotations.
Local Open Scope string_scope.
Local Open Scope list_scope.
Local Open Scope Z_scope.

(** ** ControllerState (controller.py, lines 8-64) *)

(** The attributes of [ControllerState.__init__], in the order and with the
    types of the source: flags are [bool], triggers and axes are Python
    [int]s. *)
Record ControllerState : Type := {
  x_button : bool;
  triangle_button : bool;
  circle_button : bool;
  square_button : bool;
  L1_button : bool;
  L2_button : Z;
  L3_button : bool;
  R1_button : bool;
  R2_button : Z;
  R3_button : bool;
  up_arrow : bool;
  down_arrow : bool;
  left_arrow : bool;
  right_arrow : bool;
  L3_x_axis : Z;
  L3_y_axis : Z;
  R3_x_axis : Z;
  R3_y_axis : Z;
  share_button : bool;
  options_button : bool;
  playstation_button : bool
}.

(** [ControllerState()] : every flag false, both triggers at -32767, every
    axis at 0. *)
Definition ControllerState_init : ControllerState :=
  {| x_button := false; triangle_button := false; circle_button := false;
     square_button := false;
     L1_button := false; L2_button := -32767; L3_button := false;
     R1_button := false; R2_button := -32767; R3_button := false;
     up_arrow := false; down_arrow := false; left_arrow := false;
     right_arrow := false;
     L3_x_axis := 0; L3_y_axis := 0;
     R3_x_axis := 0; R3_y_axis := 0;
     share_button := false; options_button := false;
     playstation_button := false |}.

(** Attribute assignment [self.state.<field> = v], one setter per field. *)
Definition set_x_button (v : bool) (s : ControllerState) : ControllerState :=
  {| x_button := v; triangle_button := triangle_button s;
     circle_button := circle_button s; square_button := square_button s;
     L1_button := L1_button s; L2_button := L2_button s;
     L3_button := L3_button s; R1_button := R1_button s;
     R2_button := R2_button s; R3_button := R3_button s;
     up_arrow := up_arrow s; down_arrow := down_arrow s;
     left_arrow := left_arrow s; right_arrow := right_arrow s;
     L3_x_axis := L3_x_axis s; L3_y_axis := L3_y_axis s;
     R3_x_axis := R3_x_axis s; R3_y_axis := R3_y_axis s;
     share_button := share_button s; options_button := options_button s;
     playstation_button := playstation_button s |}.

Definition set_triangle_button (v : bool) (s : ControllerState) : ControllerState :=
  {| x_button := x_button s; triangle_button := v;
     circle_button := circle_button s; square_button := square_button s;
     L1_button := L1_button s; L2_button := L2_button s;
     L3_button := L3_button s; R1_button := R1_button s;
     R2_button := R2_button s; R3_button := R3_button s;
     up_arrow := up_arrow s; down_arrow := down_arrow s;
     left_arrow := left_arrow s; right_arrow := right_arrow s;
     L3_x_axis := L3_x_axis s; L3_y_axis := L3_y_axis s;
     R3_x_axis := R3_x_axis s; R3_y_axis := R3_y_axis s;
     share_button := share_button s; options_button := options_button s;
     playstation_button := playstation_button s |}.

Definition set_circle_button (v : bool) (s : ControllerState) : ControllerState :=
  {| x_button := x_button s; triangle_button := triangle_button s;
     circle_button := v; square_button := square_button s;
     L1_button := L1_button s; L2_button := L2_button s;
     L3_button := L3_button s; R1_button := R1_button s;
     R2_button := R2_button s; R3_button := R3_button s;
     up_arrow := up_arrow s; down_arrow := down_arrow s;
     left_arrow := left_arrow s; right_arrow := right_arrow s;
     L3_x_axis := L3_x_axis s; L3_y_axis := L3_y_axis s;
     R3_x_axis := R3_x_axis s; R3_y_axis := R3_y_axis s;
     share_button := share_button s; options_button := options_button s;
     playstation_button := playstation_button s |}.

Definition set_square_button (v : bool) (s : ControllerState) : ControllerState :=
  {| x_button := x_button s; triangle_button := triangle_button s;
     circle_button := circle_button s; square_button := v;
     L1_button := L1_button s; L2_button := L2_button s;
     L3_button := L3_button s; R1_button := R1_button s;
     R2_button := R2_button s; R3_button := R3_button s;
     up_arrow := up_arrow s; down_arrow := down_arrow s;
     left_arrow := left_arrow s; right_arrow := right_arrow s;
     L3_x_axis := L3_x_axis s; L3_y_axis := L3_y_axis s;
     R3_x_axis := R3_x_axis s; R3_y_axis := R3_y_axis s;
     share_button := share_button s; options_button := options_button s;
     playstation_button := playstation_button s |}.

Definition set_L1_button (v : bool) (s : ControllerState) : ControllerState :=
  {| x_button := x_button s; triangle_button := triangle_button s;
     circle_button := circle_button s; square_button := square_button s;
     L1_button := v; L2_button := L2_button s; L3_button := L3_button s;
     R1_button := R1_button s; R2_button := R2_button s;
     R3_button := R3_button s; up_arrow := up_arrow s;
     down_arrow := down_arrow s; left_arrow := left_arrow s;
     right_arrow := right_arrow s; L3_x_axis := L3_x_axis s;
     L3_y_axis := L3_y_axis s; R3_x_axis := R3_x_axis s;
     R3_y_axis := R3_y_axis s; share_button := share_button s;
     options_button := options_button s;
     playstation_button := playstation_button s |}.

Definition set_L2_button (v : Z) (s : ControllerState) : ControllerState :=
  {| x_button := x_button s; triangle_button := triangle_button s;
     circle_button := circle_button s; square_button := square_button s;
     L1_button := L1_button s; L2_button := v; L3_button := L3_button s;
     R1_button := R1_button s; R2_button := R2_button s;
     R3_button := R3_button s; up_arrow := up_arrow s;
     down_arrow := down_arrow s; left_arrow := left_arrow s;
     right_arrow := right_arrow s; L3_x_axis := L3_x_axis s;
     L3_y_axis := L3_y_axis s; R3_x_axis := R3_x_axis s;
     R3_y_axis := R3_y_axis s; share_button := share_button s;
     options_button := options_button s;
     playstation_button := playstation_button s |}.

Definition set_L3_button (v : bool) (s : ControllerState) : ControllerState :=
  {| x_button := x_button s; triangle_button := triangle_button s;
     circle_button := circle_button s; square_button := square_button s;
     L1_button := L1_button s; L2_button := L2_button s; L3_button := v;
     R1_button := R1_button s; R2_button := R2_button s;
     R3_button := R3_button s; up_arrow := up_arrow s;
     down_arrow := down_arrow s; left_arrow := left_arrow s;
     right_arrow := right_arrow s; L3_x_axis := L3_x_axis s;
     L3_y_axis := L3_y_axis s; R3_x_axis := R3_x_axis s;
     R3_y_axis := R3_y_axis s; share_button := share_button s;
     options_button := options_button s;
     playstation_button := playstation_button s |}.

Definition set_R1_button (v : bool) (s : ControllerState) : ControllerState :=
  {| x_button := x_button s; triangle_button := triangle_button s;
     circle_button := circle_button s; square_button := square_button s;
     L1_button := L1_button s; L2_button := L2_button s;
     L3_button := L3_button s; R1_button := v; R2_button := R2_button s;
     R3_button := R3_button s; up_arrow := up_arrow s;
     down_arrow := down_arrow s; left_arrow := left_arrow s;
     right_arrow := right_arrow s; L3_x_axis := L3_x_axis s;
     L3_y_axis := L3_y_axis s; R3_x_axis := R3_x_axis s;
     R3_y_axis := R3_y_axis s; share_button := share_button s;
     options_button := options_button s;
     playstation_button := playstation_button s |}.

Definition set_R2_button (v : Z) (s : ControllerState) : ControllerState :=
  {| x_button := x_button s; triangle_button := triangle_button s;
     circle_button := circle_button s; square_button := square_button s;
     L1_button := L1_button s; L2_button := L2_button s;
     L3_button := L3_button s; R1_button := R1_button s; R2_button := v;
     R3_button := R3_button s; up_arrow := up_arrow s;
     down_arrow := down_arrow s; left_arrow := left_arrow s;
     right_arrow := right_arrow s; L3_x_axis := L3_x_axis s;
     L3_y_axis := L3_y_axis s; R3_x_axis := R3_x_axis s;
     R3_y_axis := R3_y_axis s; share_button := share_button s;
     options_button := options_button s;
     playstation_button := playstation_button s |}.

Definition set_R3_button (v : bool) (s : ControllerState) : ControllerState :=
  {| x_button := x_button s; triangle_button := triangle_button s;
     circle_button := circle_button s; square_button := square_button s;
     L1_button := L1_button s; L2_button := L2_button s;
     L3_button := L3_button s; R1_button := R1_button s;
     R2_button := R2_button s; R3_button := v; up_arrow := up_arrow s;
     down_arrow := down_arrow s; left_arrow := left_arrow s;
     right_arrow := right_arrow s; L3_x_axis := L3_x_axis s;
     L3_y_axis := L3_y_axis s; R3_x_axis := R3_x_axis s;
     R3_y_axis := R3_y_axis s; share_button := share_button s;
     options_button := options_button s;
     playstation_button := playstation_button s |}.

Definition set_up_arrow (v : bool) (s : ControllerState) : ControllerState :=
  {| x_button := x_button s; triangle_button := triangle_button s;
     circle_button := circle_button s; square_button := square_button s;
     L1_button := L1_button s; L2_button := L2_button s;
     L3_button := L3_button s; R1_button := R1_button s;
     R2_button := R2_button s; R3_button := R3_button s; up_arrow := v;
     down_arrow := down_arrow s; left_arrow := left_arrow s;
     right_arrow := right_arrow s; L3_x_axis := L3_x_axis s;
     L3_y_axis := L3_y_axis s; R3_x_axis := R3_x_axis s;
     R3_y_axis := R3_y_axis s; share_button := share_button s;
     options_button := options_button s;
     playstation_button := playstation_button s |}.

Definition set_down_arrow (v : bool) (s : ControllerState) : ControllerState :=
  {| x_button := x_button s; triangle_button := triangle_button s;
     circle_button := circle_button s; square_button := square_button s;
     L1_button := L1_button s; L2_button := L2_button s;
     L3_button := L3_button s; R1_button := R1_button s;
     R2_button := R2_button s; R3_button := R3_button s;
     up_arrow := up_arrow s; down_arrow := v; left_arrow := left_arrow s;
     right_arrow := right_arrow s; L3_x_axis := L3_x_axis s;
     L3_y_axis := L3_y_axis s; R3_x_axis := R3_x_axis s;
     R3_y_axis := R3_y_axis s; share_button := share_button s;
     options_button := options_button s;
     playstation_button := playstation_button s |}.

Definition set_left_arrow (v : bool) (s : ControllerState) : ControllerState :=
  {| x_button := x_button s; triangle_button := triangle_button s;
     circle_button := circle_button s; square_button := square_button s;
     L1_button := L1_button s; L2_button := L2_button s;
     L3_button := L3_button s; R1_button := R1_button s;
     R2_button := R2_button s; R3_button := R3_button s;
     up_arrow := up_arrow s; down_arrow := down_arrow s; left_arrow := v;
     right_arrow := right_arrow s; L3_x_axis := L3_x_axis s;
     L3_y_axis := L3_y_axis s; R3_x_axis := R3_x_axis s;
     R3_y_axis := R3_y_axis s; share_button := share_button s;
     options_button := options_button s;
     playstation_button := playstation_button s |}.

Definition set_right_arrow (v : bool) (s : ControllerState) : ControllerState :=
  {| x_button := x_button s; triangle_button := triangle_button s;
     circle_button := circle_button s; square_button := square_button s;
     L1_button := L1_button s; L2_button := L2_button s;
     L3_button := L3_button s; R1_button := R1_button s;
     R2_button := R2_button s; R3_button := R3_button s;
     up_arrow := up_arrow s; down_arrow := down_arrow s;
     left_arrow := left_arrow s; right_arrow := v; L3_x_axis := L3_x_axis s;
     L3_y_axis := L3_y_axis s; R3_x_axis := R3_x_axis s;
     R3_y_axis := R3_y_axis s; share_button := share_button s;
     options_button := options_button s;
     playstation_button := playstation_button s |}.

Definition set_L3_x_axis (v : Z) (s : ControllerState) : ControllerState :=
  {| x_button := x_button s; triangle_button := triangle_button s;
     circle_button := circle_button s; square_button := square_button s;
     L1_button := L1_button s; L2_button := L2_button s;
     L3_button := L3_button s; R1_button := R1_button s;
     R2_button := R2_button s; R3_button := R3_button s;
     up_arrow := up_arrow s; down_arrow := down_arrow s;
     left_arrow := left_arrow s; right_arrow := right_arrow s;
     L3_x_axis := v; L3_y_axis := L3_y_axis s; R3_x_axis := R3_x_axis s;
     R3_y_axis := R3_y_axis s; share_button := share_button s;
     options_button := options_button s;
     playstation_button := playstation_button s |}.

Definition set_L3_y_axis (v : Z) (s : ControllerState) : ControllerState :=
  {| x_button := x_button s; triangle_button := triangle_button s;
     circle_button := circle_button s; square_button := square_button s;
     L1_button := L1_button s; L2_button := L2_button s;
     L3_button := L3_button s; R1_button := R1_button s;
     R2_button := R2_button s; R3_button := R3_button s;
     up_arrow := up_arrow s; down_arrow := down_arrow s;
     left_arrow := left_arrow s; right_arrow := right_arrow s;
     L3_x_axis := L3_x_axis s; L3_y_axis := v; R3_x_axis := R3_x_axis s;
     R3_y_axis := R3_y_axis s; share_button := share_button s;
     options_button := options_button s;
     playstation_button := playstation_button s |}.

Definition set_R3_x_axis (v : Z) (s : ControllerState) : ControllerState :=
  {| x_button := x_button s; triangle_button := triangle_button s;
     circle_button := circle_button s; square_button := square_button s;
     L1_button := L1_button s; L2_button := L2_button s;
     L3_button := L3_button s; R1_button := R1_button s;
     R2_button := R2_button s; R3_button := R3_button s;
     up_arrow := up_arrow s; down_arrow := down_arrow s;
     left_arrow := left_arrow s; right_arrow := right_arrow s;
     L3_x_axis := L3_x_axis s; L3_y_axis := L3_y_axis s; R3_x_axis := v;
     R3_y_axis := R3_y_axis s; share_button := share_button s;
     options_button := options_button s;
     playstation_button := playstation_button s |}.

Definition set_R3_y_axis (v : Z) (s : ControllerState) : ControllerState :=
  {| x_button := x_button s; triangle_button := triangle_button s;
     circle_button := circle_button s; square_button := square_button s;
     L1_button := L1_button s; L2_button := L2_button s;
     L3_button := L3_button s; R1_button := R1_button s;
     R2_button := R2_button s; R3_button := R3_button s;
     up_arrow := up_arrow s; down_arrow := down_arrow s;
     left_arrow := left_arrow s; right_arrow := right_arrow s;
     L3_x_axis := L3_x_axis s; L3_y_axis := L3_y_axis s;
     R3_x_axis := R3_x_axis s; R3_y_axis := v;
     share_button := share_button s; options_button := options_button s;
     playstation_button := playstation_button s |}.

Definition set_share_button (v : bool) (s : ControllerState) : ControllerState :=
  {| x_button := x_button s; triangle_button := triangle_button s;
     circle_button := circle_button s; square_button := square_button s;
     L1_button := L1_button s; L2_button := L2_button s;
     L3_button := L3_button s; R1_button := R1_button s;
     R2_button := R2_button s; R3_button := R3_button s;
     up_arrow := up_arrow s; down_arrow := down_arrow s;
     left_arrow := left_arrow s; right_arrow := right_arrow s;
     L3_x_axis := L3_x_axis s; L3_y_axis := L3_y_axis s;
     R3_x_axis := R3_x_axis s; R3_y_axis := R3_y_axis s; share_button := v;
     options_button := options_button s;
     playstation_button := playstation_button s |}.

Definition set_options_button (v : bool) (s : ControllerState) : ControllerState :=
  {| x_button := x_button s; triangle_button := triangle_button s;
     circle_button := circle_button s; square_button := square_button s;
     L1_button := L1_button s; L2_button := L2_button s;
     L3_button := L3_button s; R1_button := R1_button s;
     R2_button := R2_button s; R3_button := R3_button s;
     up_arrow := up_arrow s; down_arrow := down_arrow s;
     left_arrow := left_arrow s; right_arrow := right_arrow s;
     L3_x_axis := L3_x_axis s; L3_y_axis := L3_y_axis s;
     R3_x_axis := R3_x_axis s; R3_y_axis := R3_y_axis s;
     share_button := share_button s; options_button := v;
     playstation_button := playstation_button s |}.

Definition set_playstation_button (v : bool) (s : ControllerState) : ControllerState :=
  {| x_button := x_button s; triangle_button := triangle_button s;
     circle_button := circle_button s; square_button := square_button s;
     L1_button := L1_button s; L2_button := L2_button s;
     L3_button := L3_button s; R1_button := R1_button s;
     R2_button := R2_button s; R3_button := R3_button s;
     up_arrow := up_arrow s; down_arrow := down_arrow s;
     left_arrow := left_arrow s; right_arrow := right_arrow s;
     L3_x_axis := L3_x_axis s; L3_y_axis := L3_y_axis s;
     R3_x_axis := R3_x_axis s; R3_y_axis := R3_y_axis s;
     share_button := share_button s; options_button := options_button s;
     playstation_button := v |}.

(** ** The event object

    [_handle_event] builds [event = self.event_definition(...)] and then
    only calls its query methods and reads [event.value].  The mapping
    class is injected ([event_definition] argument of [Controller.__init__]);
    the default one, [event_mapping.Mapping3Bh2b], is imported from outside
    this file and is taken as a parameter.  An event object is therefore
    the answers of its query methods, listed in the order [_handle_event]
    consults them. *)
Module Event.
Record t : Type := {
  value : Z;
  (* right stick *)
  R3_event : bool;
  R3_y_at_rest : bool;
  R3_x_at_rest : bool;
  R3_right : bool;
  R3_left : bool;
  R3_up : bool;
  R3_down : bool;
  (* left stick *)
  L3_event : bool;
  L3_y_at_rest : bool;
  L3_x_at_rest : bool;
  L3_up : bool;
  L3_down : bool;
  L3_left : bool;
  L3_right : bool;
  (* buttons and triggers *)
  circle_pressed : bool;
  circle_released : bool;
  x_pressed : bool;
  x_released : bool;
  triangle_pressed : bool;
  triangle_released : bool;
  square_pressed : bool;
  square_released : bool;
  L1_pressed : bool;
  L1_released : bool;
  L2_pressed : bool;
  L2_released : bool;
  R1_pressed : bool;
  R1_released : bool;
  R2_pressed : bool;
  R2_released : bool;
  options_pressed : bool;
  options_released : bool;
  (* directional pad *)
  left_right_arrow_released : bool;
  up_down_arrow_released : bool;
  left_arrow_pressed : bool;
  right_arrow_pressed : bool;
  up_arrow_pressed : bool;
  down_arrow_pressed : bool;
  (* remaining buttons *)
  playstation_button_pressed : bool;
  playstation_button_released : bool;
  share_pressed : bool;
  share_released : bool;
  R3_pressed : bool;
  R3_released : bool;
  L3_pressed : bool;
  L3_released : bool
}.
End Event.

(** The constructor call of line 176: keyword arguments [button_id],
    [button_type], [value], [connecting_using_ds4drv], [overflow], [debug]. *)
Definition EventDefinition : Type :=
  Z -> Z -> Z -> bool -> list Z -> bool -> Event.t.

(** ** struct: the binary record layout

    [struct.calcsize] and [struct.unpack] of the Python library, for layouts
    made of the characters [B] (unsigned char), [b] (signed char), [H]
    (unsigned short) and [h] (short), each with a repeat count.  A layout
    string without a prefix is in native mode: every field is aligned to its
    own size and nothing is padded at the end.  Shorts are read low byte
    first, the byte order of the machines the joystick interface runs on. *)
Module Struct.

Inductive code : Type := Code_B | Code_b | Code_H | Code_h.

Definition format : Type := list (nat * code).

Definition itemsize (c : code) : nat :=
  match c with
  | Code_B | Code_b => 1
  | Code_H | Code_h => 2
  end.

Definition align (offset size : nat) : nat :=
  (offset + (size - offset mod size) mod size)%nat.

Fixpoint calcsize_from (offset : nat) (f : format) : nat :=
  match f with
  | [] => offset
  | (n, c) :: f' =>
      calcsize_from (align offset (itemsize c) + n * itemsize c)%nat f'
  end.

Definition calcsize (f : format) : nat := calcsize_from 0 f.

Definition u8 (bs : list byte) (i : nat) : Z :=
  Z.of_N (Byte.to_N (nth i bs x00)).

Definition signed (bits v : Z) : Z :=
  if v <? 2 ^ (bits - 1) then v else v - 2 ^ bits.

Definition field (c : code) (bs : list byte) (i : nat) : Z :=
  match c with
  | Code_B => u8 bs i
  | Code_b => signed 8 (u8 bs i)
  | Code_H => u8 bs i + 256 * u8 bs (S i)
  | Code_h => signed 16 (u8 bs i + 256 * u8 bs (S i))
  end.

Fixpoint fields (c : code) (bs : list byte) (i n : nat) : list Z :=
  match n with
  | O => []
  | S n' => field c bs i :: fields c bs (i + itemsize c) n'
  end.

Fixpoint unpack_from (offset : nat) (f : format) (bs : list byte) : list Z :=
  match f with
  | [] => []
  | (n, c) :: f' =>
      let o := align offset (itemsize c) in
      fields c bs o n ++ unpack_from (o + n * itemsize c) f' bs
  end.

(** [struct.unpack(fmt, buffer)]: the buffer must be exactly
    [calcsize(fmt)] bytes long, otherwise [struct.error] is raised
    ([None]). *)
Definition unpack (f : format) (bs : list byte) : option (list Z) :=
  if Nat.eqb (length bs) (calcsize f) then Some (unpack_from 0 f bs)
  else None.

(** The number of values [unpack] returns. *)
Definition field_count (f : format) : nat :=
  fold_right (fun nc k => (fst nc + k)%nat) 0%nat f.

End Struct.

(** The default layout ["3Bh2b"] of [Controller.__init__]. *)
Definition default_event_format : Struct.format :=
  [(3%nat, Struct.Code_B); (1%nat, Struct.Code_h); (2%nat, Struct.Code_b)].

(** ** Controller (controller.py, lines 66-94) *)

(** The attributes of a [Controller].  [_state_queue] is an unbounded
    [Queue] that only ever receives [True]; it is the list of items put
    and not yet taken.  [_listening_thread] is a thread handle and carries
    no data. *)
Record Controller : Type := {
  stop : bool;
  is_connected : bool;
  interface : string;
  debug : bool;
  event_format : Struct.format;
  event_definition : EventDefinition;
  event_size : nat;
  event_history : list string;
  state : ControllerState;
  _state_queue : list bool
}.

(** [Controller(interface, event_format, event_definition)] with an
    explicit mapping (the [else] branch of line 85). *)
Definition Controller_init (interface : string) (event_format : Struct.format)
    (event_definition : EventDefinition) : Controller :=
  {| stop := false;
     is_connected := false;
     interface := interface;
     debug := false;
     event_format := event_format;
     event_definition := event_definition;
     event_size := Struct.calcsize event_format;
     event_history := [];
     state := ControllerState_init;
     _state_queue := [] |}.

Definition set_stop (v : bool) (self : Controller) : Controller :=
  {| stop := v; is_connected := is_connected self;
     interface := interface self; debug := debug self;
     event_format := event_format self;
     event_definition := event_definition self;
     event_size := event_size self; event_history := event_history self;
     state := state self; _state_queue := _state_queue self |}.

Definition set_is_connected (v : bool) (self : Controller) : Controller :=
  {| stop := stop self; is_connected := v;
     interface := interface self; debug := debug self;
     event_format := event_format self;
     event_definition := event_definition self;
     event_size := event_size self; event_history := event_history self;
     state := state self; _state_queue := _state_queue self |}.

Definition set_event_history (v : list string) (self : Controller)
    : Controller :=
  {| stop := stop self; is_connected := is_connected self;
     interface := interface self; debug := debug self;
     event_format := event_format self;
     event_definition := event_definition self;
     event_size := event_size self; event_history := v;
     state := state self; _state_queue := _state_queue self |}.

Definition set_state (v : ControllerState) (self : Controller) : Controller :=
  {| stop := stop self; is_connected := is_connected self;
     interface := interface self; debug := debug self;
     event_format := event_format self;
     event_definition := event_definition self;
     event_size := event_size self; event_history := event_history self;
     state := v; _state_queue := _state_queue self |}.

Definition set_state_queue (v : list bool) (self : Controller) : Controller :=
  {| stop := stop self; is_connected := is_connected self;
     interface := interface self; debug := debug self;
     event_format := event_format self;
     event_definition := event_definition self;
     event_size := event_size self; event_history := event_history self;
     state := state self; _state_queue := v |}.

(** [self.event_history.append(label)] *)
Definition history_append (label : string) (self : Controller) : Controller :=
  set_event_history (event_history self ++ [label]) self.

(** [self.state.<field> = v], with [setter] the setter of the field. *)
Definition assign {A : Type} (setter : A -> ControllerState -> ControllerState)
    (v : A) (self : Controller) : Controller :=
  set_state (setter v (state self)) self.

(** [self._state_queue.put(True)] *)
Definition state_queue_put (self : Controller) : Controller :=
  set_state_queue (_state_queue self ++ [true]) self.

(** [stop_listening] (lines 108-114): raise the stop flag; joining the
    thread changes no attribute. *)
Definition stop_listening (self : Controller) : Controller :=
  set_stop true self.

(** ** _unpack_event (lines 169-172) *)

Inductive exn : Type :=
| StructError   (* struct.error: buffer of the wrong size *)
| IndexError.   (* tuple index out of range *)

(** Returns [(overflow, value, button_type, button_id)], that is
    [(__event[3:], __event[2], __event[1], __event[0])]. *)
Definition _unpack_event (self : Controller) (event : list byte)
    : exn + (list Z * Z * Z * Z) :=
  match Struct.unpack (event_format self) event with
  | None => inl StructError
  | Some __event =>
      match __event with
      | e0 :: e1 :: e2 :: rest => inr (rest, e2, e1, e0)
      | _ => inl IndexError
      end
  end.

(** ** _handle_event (lines 174-318)

    The [if]/[elif] chain, branch for branch.  A branch that appends to the
    history does so before it assigns. *)
Definition _handle_event (self : Controller)
    (button_id button_type value : Z) (overflow : list Z) : Controller :=
  let event :=
    event_definition self button_id button_type value false overflow
      (debug self) in
  if Event.R3_event event then
    let self := history_append "right_joystick" self in
    if Event.R3_y_at_rest event then assign set_R3_y_axis 0 self
    else if Event.R3_x_at_rest event then assign set_R3_x_axis 0 self
    else if Event.R3_right event then
      assign set_R3_x_axis (Event.value event) self
    else if Event.R3_left event then
      assign set_R3_x_axis (Event.value event) self
    else if Event.R3_up event then
      assign set_R3_y_axis (Event.value event) self
    else if Event.R3_down event then
      assign set_R3_y_axis (Event.value event) self
    else self

  else if Event.L3_event event then
    let self := history_append "left_joystick" self in
    if Event.L3_y_at_rest event then assign set_L3_y_axis 0 self
    else if Event.L3_x_at_rest event then assign set_L3_x_axis 0 self
    else if Event.L3_up event then
      assign set_L3_y_axis (Event.value event) self
    else if Event.L3_down event then
      assign set_L3_y_axis (Event.value event) self
    else if Event.L3_left event then
      assign set_L3_x_axis (Event.value event) self
    else if Event.L3_right event then
      assign set_L3_x_axis (Event.value event) self
    else self

  else if Event.circle_pressed event then
    assign set_circle_button true (history_append "circle" self)
  else if Event.circle_released event then
    assign set_circle_button false self

  else if Event.x_pressed event then
    assign set_x_button true (history_append "x" self)
  else if Event.x_released event then
    assign set_x_button false self

  else if Event.triangle_pressed event then
    assign set_triangle_button true (history_append "triangle" self)
  else if Event.triangle_released event then
    assign set_triangle_button false self

  else if Event.square_pressed event then
    assign set_square_button true (history_append "square" self)
  else if Event.square_released event then
    assign set_square_button false self

  else if Event.L1_pressed event then
    assign set_L1_button true (history_append "L1" self)
  else if Event.L1_released event then
    assign set_L1_button false self

  else if Event.L2_pressed event then
    assign set_L2_button (Event.value event) (history_append "L2" self)
  else if Event.L2_released event then
    assign set_L2_button (-32767) self

  else if Event.R1_pressed event then
    assign set_R1_button true (history_append "R1" self)
  else if Event.R1_released event then
    assign set_R1_button false self

  else if Event.R2_pressed event then
    assign set_R2_button (Event.value event) (history_append "R2" self)
  else if Event.R2_released event then
    assign set_R2_button (-32767) self

  else if Event.options_pressed event then
    assign set_options_button true (history_append "options" self)
  else if Event.options_released event then
    assign set_options_button false self

  else if Event.left_right_arrow_released event then
    assign set_right_arrow false (assign set_left_arrow false self)

  else if Event.up_down_arrow_released event then
    assign set_down_arrow false (assign set_up_arrow false self)

  else if Event.left_arrow_pressed event then
    assign set_left_arrow true (history_append "left" self)

  else if Event.right_arrow_pressed event then
    assign set_right_arrow true (history_append "right" self)

  else if Event.up_arrow_pressed event then
    assign set_up_arrow true (history_append "up" self)

  else if Event.down_arrow_pressed event then
    assign set_down_arrow true (history_append "down" self)

  else if Event.playstation_button_pressed event then
    assign set_playstation_button true (history_append "ps" self)
  else if Event.playstation_button_released event then
    assign set_playstation_button false self

  else if Event.share_pressed event then
    assign set_share_button true (history_append "share" self)
  else if Event.share_released event then
    assign set_share_button false self

  else if Event.R3_pressed event then
    assign set_R3_button true (history_append "R3" self)
  else if Event.R3_released event then
    assign set_R3_button false self

  else if Event.L3_pressed event then
    assign set_L3_button true (history_append "L3" self)
  else if Event.L3_released event then
    assign set_L3_button false self

  else self.

(** ** listen (lines 133-167)

    [listen] talks to the world: it polls [path.exists], sleeps, opens
    the device file and reads from it, while another thread may call
    [stop_listening] and the user may interrupt.  The environment fixes
    what the world answers; the trace records what [listen] did.  Opening
    the file is taken to succeed, and an interrupt is delivered while the
    loop waits in a read. *)

(** What happens, in order, once the device file is open. *)
Inductive device_event : Type :=
| Bytes (bs : list byte)   (* [_file.read(self.event_size)] returns [bs] *)
| StopRequest              (* another thread calls [stop_listening()] *)
| KeyboardInterrupt.       (* raised while the [try] block is running *)

Record Environment : Type := {
  (* the answer of the k-th call of [path.exists(self.interface)] *)
  path_exists : nat -> bool;
  (* the device; a read past the end of the list returns [b""] *)
  device : list device_event
}.

Inductive action : Type :=
| PathExists (found : bool)
| Sleep
| Open
| Read (bs : list byte)
| HandleEvent (button_id button_type value : Z) (overflow : list Z)
| QueuePut.

Inductive outcome : Type :=
| Returned            (* the call returns normally *)
| Raised (e : exn).   (* an exception leaves the call *)

Record Run : Type := {
  result : outcome;
  final : Controller;
  trace : list action
}.

(** The actions [pre] happened before the run [r]. *)
Definition after (pre : list action) (r : Run) : Run :=
  {| result := result r; final := final r; trace := pre ++ trace r |}.

Definition on_connect_callback (self : Controller) : Controller :=
  set_is_connected true self.

Definition on_disconnect_callback (self : Controller) : Controller :=
  set_is_connected false self.

(** The [for _ in range(timeout)] loop of [wait_for_interface], with
    [attempts] iterations left and [k] polls already made.  The result is
    the returned flag, the controller and the actions performed. *)
Fixpoint wait_loop (path_exists : nat -> bool) (k attempts : nat)
    (self : Controller) : bool * Controller * list action :=
  match attempts with
  | O => (false, on_disconnect_callback self, [])
  | S attempts' =>
      if path_exists k then
        (true, on_connect_callback self, [PathExists true])
      else
        let '(ok, self', tr) := wait_loop path_exists (S k) attempts' self in
        (ok, self', PathExists false :: Sleep :: tr)
  end.

(** [range(timeout)] is empty for a negative [timeout]. *)
Definition wait_for_interface (timeout : Z) (env : Environment)
    (self : Controller) : bool * Controller * list action :=
  wait_loop (path_exists env) 0 (Z.to_nat timeout) self.

Definition default_timeout : Z := 30.

Definition is_empty (bs : list byte) : bool :=
  match bs with [] => true | _ :: _ => false end.

(** The body of the [with open(...)] block: one read, then the loop test
    [not self.stop and event], then unpack, handle, signal and the next
    read.  The [except KeyboardInterrupt] handler disconnects and stops. *)
Fixpoint read_loop (dev : list device_event) (self : Controller) : Run :=
  match dev with
  | [] => {| result := Returned; final := self; trace := [Read []] |}
  | StopRequest :: dev' => read_loop dev' (stop_listening self)
  | KeyboardInterrupt :: _ =>
      {| result := Returned;
         final := stop_listening (on_disconnect_callback self);
         trace := [] |}
  | Bytes event :: dev' =>
      if negb (stop self) && negb (is_empty event) then
        match _unpack_event self event with
        | inl e => {| result := Raised e; final := self;
                      trace := [Read event] |}
        | inr (overflow, value, button_type, button_id) =>
            let self := _handle_event self button_id button_type value
                          overflow in
            let self := state_queue_put self in
            after [Read event;
                   HandleEvent button_id button_type value overflow;
                   QueuePut]
                  (read_loop dev' self)
        end
      else {| result := Returned; final := self; trace := [Read event] |}
  end.

Definition listen (timeout : Z) (env : Environment) (self : Controller)
    : Run :=
  let '(found, self, polls) := wait_for_interface timeout env self in
  if found then after (polls ++ [Open]) (read_loop (device env) self)
  else {| result := Returned; final := self; trace := polls |}.

(** ** The dispatch of [_handle_event], named

    The chain of [_handle_event] is first-match-wins.  [classify] names the
    branch an event object falls into: the semantic event it decodes to.
    The order of the tests is the order of the source. *)

Inductive motion : Type :=
| YAtRest | XAtRest | MoveRight | MoveLeft | MoveUp | MoveDown
| NoMotion.   (* a stick event none of whose six queries holds *)

Inductive button : Type :=
| BCircle | BX | BTriangle | BSquare | BL1 | BR1 | BOptions
| BPlaystation | BShare | BR3 | BL3.

Inductive trigger : Type := TL2 | TR2.

Inductive arrow : Type := ArrowLeft | ArrowRight | ArrowUp | ArrowDown.

Inductive SemanticEvent : Type :=
| RightStick (m : motion)
| LeftStick (m : motion)
| Pressed (b : button)
| Released (b : button)
| TriggerPressed (t : trigger)
| TriggerReleased (t : trigger)
| LeftRightReleased
| UpDownReleased
| ArrowPressed (a : arrow)
| Unrecognized.

(** Lines 190-201. *)
Definition classify_right_stick (event : Event.t) : motion :=
  if Event.R3_y_at_rest event then YAtRest
  else if Event.R3_x_at_rest event then XAtRest
  else if Event.R3_right event then MoveRight
  else if Event.R3_left event then MoveLeft
  else if Event.R3_up event then MoveUp
  else if Event.R3_down event then MoveDown
  else NoMotion.

(** Lines 205-216. *)
Definition classify_left_stick (event : Event.t) : motion :=
  if Event.L3_y_at_rest event then YAtRest
  else if Event.L3_x_at_rest event then XAtRest
  else if Event.L3_up event then MoveUp
  else if Event.L3_down event then MoveDown
  else if Event.L3_left event then MoveLeft
  else if Event.L3_right event then MoveRight
  else NoMotion.

Definition classify (event : Event.t) : SemanticEvent :=
  if Event.R3_event event then RightStick (classify_right_stick event)
  else if Event.L3_event event then LeftStick (classify_left_stick event)
  else if Event.circle_pressed event then Pressed BCircle
  else if Event.circle_released event then Released BCircle
  else if Event.x_pressed event then Pressed BX
  else if Event.x_released event then Released BX
  else if Event.triangle_pressed event then Pressed BTriangle
  else if Event.triangle_released event then Released BTriangle
  else if Event.square_pressed event then Pressed BSquare
  else if Event.square_released event then Released BSquare
  else if Event.L1_pressed event then Pressed BL1
  else if Event.L1_released event then Released BL1
  else if Event.L2_pressed event then TriggerPressed TL2
  else if Event.L2_released event then TriggerReleased TL2
  else if Event.R1_pressed event then Pressed BR1
  else if Event.R1_released event then Released BR1
  else if Event.R2_pressed event then TriggerPressed TR2
  else if Event.R2_released event then TriggerReleased TR2
  else if Event.options_pressed event then Pressed BOptions
  else if Event.options_released event then Released BOptions
  else if Event.left_right_arrow_released event then LeftRightReleased
  else if Event.up_down_arrow_released event then UpDownReleased
  else if Event.left_arrow_pressed event then ArrowPressed ArrowLeft
  else if Event.right_arrow_pressed event then ArrowPressed ArrowRight
  else if Event.up_arrow_pressed event then ArrowPressed ArrowUp
  else if Event.down_arrow_pressed event then ArrowPressed ArrowDown
  else if Event.playstation_button_pressed event then Pressed BPlaystation
  else if Event.playstation_button_released event then Released BPlaystation
  else if Event.share_pressed event then Pressed BShare
  else if Event.share_released event then Released BShare
  else if Event.R3_pressed event then Pressed BR3
  else if Event.R3_released event then Released BR3
  else if Event.L3_pressed event then Pressed BL3
  else if Event.L3_released event then Released BL3
  else Unrecognized.

(** The event object [_handle_event] builds at line 176. *)
Definition event_of (self : Controller) (button_id button_type value : Z)
    (overflow : list Z) : Event.t :=
  event_definition self button_id button_type value false overflow
    (debug self).

(** The flag of a button, of an arrow, and the field of a trigger. *)
Definition button_flag (b : button) (s : ControllerState) : bool :=
  match b with
  | BCircle => circle_button s
  | BX => x_button s
  | BTriangle => triangle_button s
  | BSquare => square_button s
  | BL1 => L1_button s
  | BR1 => R1_button s
  | BOptions => options_button s
  | BPlaystation => playstation_button s
  | BShare => share_button s
  | BR3 => R3_button s
  | BL3 => L3_button s
  end.

Definition set_button (b : button) : bool -> ControllerState -> ControllerState :=
  match b with
  | BCircle => set_circle_button
  | BX => set_x_button
  | BTriangle => set_triangle_button
  | BSquare => set_square_button
  | BL1 => set_L1_button
  | BR1 => set_R1_button
  | BOptions => set_options_button
  | BPlaystation => set_playstation_button
  | BShare => set_share_button
  | BR3 => set_R3_button
  | BL3 => set_L3_button
  end.

Definition button_label (b : button) : string :=
  match b with
  | BCircle => "circle"
  | BX => "x"
  | BTriangle => "triangle"
  | BSquare => "square"
  | BL1 => "L1"
  | BR1 => "R1"
  | BOptions => "options"
  | BPlaystation => "ps"
  | BShare => "share"
  | BR3 => "R3"
  | BL3 => "L3"
  end.

Definition trigger_field (t : trigger) (s : ControllerState) : Z :=
  match t with TL2 => L2_button s | TR2 => R2_button s end.

Definition set_trigger (t : trigger) : Z -> ControllerState -> ControllerState :=
  match t with TL2 => set_L2_button | TR2 => set_R2_button end.

Definition trigger_label (t : trigger) : string :=
  match t with TL2 => "L2" | TR2 => "R2" end.

Definition arrow_flag (a : arrow) (s : ControllerState) : bool :=
  match a with
  | ArrowLeft => left_arrow s
  | ArrowRight => right_arrow s
  | ArrowUp => up_arrow s
  | ArrowDown => down_arrow s
  end.

Definition set_arrow (a : arrow) : bool -> ControllerState -> ControllerState :=
  match a with
  | ArrowLeft => set_left_arrow
  | ArrowRight => set_right_arrow
  | ArrowUp => set_up_arrow
  | ArrowDown => set_down_arrow
  end.

Definition arrow_label (a : arrow) : string :=
  match a with
  | ArrowLeft => "left"
  | ArrowRight => "right"
  | ArrowUp => "up"
  | ArrowDown => "down"
  end.

(** The other arrow of the same axis, and the combined release of that
    axis (lines 272-278). *)
Definition opposite (a : arrow) : arrow :=
  match a with
  | ArrowLeft => ArrowRight
  | ArrowRight => ArrowLeft
  | ArrowUp => ArrowDown
  | ArrowDown => ArrowUp
  end.

Definition combined_release (a : arrow) : SemanticEvent :=
  match a with
  | ArrowLeft | ArrowRight => LeftRightReleased
  | ArrowUp | ArrowDown => UpDownReleased
  end.

(** The label a semantic event appends to the history, if any. *)
Definition label_of (sem : SemanticEvent) : option string :=
  match sem with
  | RightStick _ => Some "right_joystick"
  | LeftStick _ => Some "left_joystick"
  | Pressed b => Some (button_label b)
  | TriggerPressed t => Some (trigger_label t)
  | ArrowPressed a => Some (arrow_label a)
  | Released _ | TriggerReleased _ | LeftRightReleased | UpDownReleased
  | Unrecognized => None
  end.

(** What a semantic event does to the snapshot; [v] is [event.value]. *)
Definition update (sem : SemanticEvent) (v : Z) (s : ControllerState)
    : ControllerState :=
  match sem with
  | RightStick YAtRest => set_R3_y_axis 0 s
  | RightStick XAtRest => set_R3_x_axis 0 s
  | RightStick (MoveRight | MoveLeft) => set_R3_x_axis v s
  | RightStick (MoveUp | MoveDown) => set_R3_y_axis v s
  | RightStick NoMotion => s
  | LeftStick YAtRest => set_L3_y_axis 0 s
  | LeftStick XAtRest => set_L3_x_axis 0 s
  | LeftStick (MoveUp | MoveDown) => set_L3_y_axis v s
  | LeftStick (MoveLeft | MoveRight) => set_L3_x_axis v s
  | LeftStick NoMotion => s
  | Pressed b => set_button b true s
  | Released b => set_button b false s
  | TriggerPressed t => set_trigger t v s
  | TriggerReleased t => set_trigger t (-32767) s
  | LeftRightReleased => set_right_arrow false (set_left_arrow false s)
  | UpDownReleased => set_down_arrow false (set_up_arrow false s)
  | ArrowPressed a => set_arrow a true s
  | Unrecognized => s
  end.

(** [_handle_event] as one match on the semantic event. *)
Definition reduce (sem : SemanticEvent) (v : Z) (self : Controller)
    : Controller :=
  set_state (update sem v (state self))
    (match label_of sem with
     | Some label => history_append label self
     | None => self
     end).

(** ** Snapshot fields and dispatch categories *)

Inductive field : Type :=
| F_x_button | F_triangle_button | F_circle_button | F_square_button
| F_L1_button | F_L2_button | F_L3_button
| F_R1_button | F_R2_button | F_R3_button
| F_up_arrow | F_down_arrow | F_left_arrow | F_right_arrow
| F_L3_x_axis | F_L3_y_axis | F_R3_x_axis | F_R3_y_axis
| F_share_button | F_options_button | F_playstation_button.

(** The fields, in the order of [__init__] and of [to_dict]. *)
Definition all_fields : list field :=
  [F_x_button; F_triangle_button; F_circle_button; F_square_button;
   F_L1_button; F_L2_button; F_L3_button;
   F_R1_button; F_R2_button; F_R3_button;
   F_up_arrow; F_down_arrow; F_left_arrow; F_right_arrow;
   F_L3_x_axis; F_L3_y_axis; F_R3_x_axis; F_R3_y_axis;
   F_share_button; F_options_button; F_playstation_button].

(** Do two snapshots hold the same value in field [f]? *)
Definition field_same (f : field) (s s' : ControllerState) : bool :=
  match f with
  | F_x_button => Bool.eqb (x_button s) (x_button s')
  | F_triangle_button => Bool.eqb (triangle_button s) (triangle_button s')
  | F_circle_button => Bool.eqb (circle_button s) (circle_button s')
  | F_square_button => Bool.eqb (square_button s) (square_button s')
  | F_L1_button => Bool.eqb (L1_button s) (L1_button s')
  | F_L2_button => L2_button s =? L2_button s'
  | F_L3_button => Bool.eqb (L3_button s) (L3_button s')
  | F_R1_button => Bool.eqb (R1_button s) (R1_button s')
  | F_R2_button => R2_button s =? R2_button s'
  | F_R3_button => Bool.eqb (R3_button s) (R3_button s')
  | F_up_arrow => Bool.eqb (up_arrow s) (up_arrow s')
  | F_down_arrow => Bool.eqb (down_arrow s) (down_arrow s')
  | F_left_arrow => Bool.eqb (left_arrow s) (left_arrow s')
  | F_right_arrow => Bool.eqb (right_arrow s) (right_arrow s')
  | F_L3_x_axis => L3_x_axis s =? L3_x_axis s'
  | F_L3_y_axis => L3_y_axis s =? L3_y_axis s'
  | F_R3_x_axis => R3_x_axis s =? R3_x_axis s'
  | F_R3_y_axis => R3_y_axis s =? R3_y_axis s'
  | F_share_button => Bool.eqb (share_button s) (share_button s')
  | F_options_button => Bool.eqb (options_button s) (options_button s')
  | F_playstation_button =>
      Bool.eqb (playstation_button s) (playstation_button s')
  end.

(** The fields whose value differs between two snapshots. *)
Definition changed_fields (s s' : ControllerState) : list field :=
  filter (fun f => negb (field_same f s s')) all_fields.

(** The five dispatch categories, in evaluation order. *)
Inductive category : Type :=
| RightStickMotion | LeftStickMotion | DigitalButton | AnalogTrigger
| DirectionalPad.

Definition field_category (f : field) : category :=
  match f with
  | F_R3_x_axis | F_R3_y_axis => RightStickMotion
  | F_L3_x_axis | F_L3_y_axis => LeftStickMotion
  | F_L2_button | F_R2_button => AnalogTrigger
  | F_up_arrow | F_down_arrow | F_left_arrow | F_right_arrow =>
      DirectionalPad
  | _ => DigitalButton
  end.

Definition event_category (sem : SemanticEvent) : option category :=
  match sem with
  | RightStick _ => Some RightStickMotion
  | LeftStick _ => Some LeftStickMotion
  | Pressed _ | Released _ => Some DigitalButton
  | TriggerPressed _ | TriggerReleased _ => Some AnalogTrigger
  | LeftRightReleased | UpDownReleased | ArrowPressed _ =>
      Some DirectionalPad
  | Unrecognized => None
  end.

(** The labels the branches of each category append. *)
Definition category_labels (c : category) : list string :=
  match c with
  | RightStickMotion => ["right_joystick"]
  | LeftStickMotion => ["left_joystick"]
  | DigitalButton =>
      ["circle"; "x"; "triangle"; "square"; "L1"; "R1"; "options"; "ps";
       "share"; "R3"; "L3"]
  | AnalogTrigger => ["L2"; "R2"]
  | DirectionalPad => ["left"; "right"; "up"; "down"]
  end.

(** ** Reading traces *)

Definition count (p : action -> bool) (tr : list action) : nat :=
  List.length (filter p tr).

Definition is_poll (a : action) : bool :=
  match a with PathExists _ => true | _ => false end.
Definition is_sleep (a : action) : bool :=
  match a with Sleep => true | _ => false end.
Definition is_open (a : action) : bool :=
  match a with Open => true | _ => false end.
Definition is_read (a : action) : bool :=
  match a with Read _ => true | _ => false end.
Definition is_handle (a : action) : bool :=
  match a with HandleEvent _ _ _ _ => true | _ => false end.
Definition is_put (a : action) : bool :=
  match a with QueuePut => true | _ => false end.

(** The number of records handed to [_handle_event], and the number of
    signals put on the queue. *)
Definition handled (tr : list action) : nat := count is_handle tr.
Definition signals (tr : list action) : nat := count is_put tr.

(** Every [HandleEvent] is directly followed by one [QueuePut], and no
    [QueuePut] occurs anywhere else. *)
Fixpoint signal_follows_each_record (tr : list action) : bool :=
  match tr with
  | [] => true
  | HandleEvent _ _ _ _ :: QueuePut :: tr' => signal_follows_each_record tr'
  | HandleEvent _ _ _ _ :: _ => false
  | QueuePut :: _ => false
  | _ :: tr' => signal_follows_each_record tr'
  end.

(** [k] polls that did not find the path, each followed by its sleep. *)
Fixpoint failed_polls (k : nat) : list action :=
  match k with
  | O => []
  | S k' => PathExists false :: Sleep :: failed_polls k'
  end.

(** The invariant [__init__] establishes between the layout and the record
    width, and the three leading fields [_unpack_event] indexes. *)
Definition layout_ok (self : Controller) : Prop :=
  event_size self = Struct.calcsize (event_format self)
  /\ (3 <= Struct.field_count (event_format self))%nat.

(** The next read returns no bytes: an explicit empty read, or the end of
    the device. *)
Definition zero_read_next (dev : list device_event) : bool :=
  match dev with
  | [] => true
  | Bytes bs :: _ => is_empty bs
  | _ => false
  end.

(** ** A concrete mapping and concrete runs

    A mapping in the style of the Linux joystick interface ([button_type] 1
    is a button, 2 an axis), to run the model on concrete records.  It
    stands in for the injected [event_definition]; the theorems below hold
    for every mapping. *)
Definition sample_mapping : EventDefinition :=
  fun button_id button_type value _ _ _ =>
  let button n := (button_type =? 1) && (button_id =? n) in
  let axis n := (button_type =? 2) && (button_id =? n) in
  {| Event.value := value;
     Event.R3_event := axis 3 || axis 4;
     Event.R3_y_at_rest := axis 4 && (value =? 0);
     Event.R3_x_at_rest := axis 3 && (value =? 0);
     Event.R3_right := axis 3 && (0 <? value);
     Event.R3_left := axis 3 && (value <? 0);
     Event.R3_up := axis 4 && (value <? 0);
     Event.R3_down := axis 4 && (0 <? value);
     Event.L3_event := axis 0 || axis 1;
     Event.L3_y_at_rest := axis 1 && (value =? 0);
     Event.L3_x_at_rest := axis 0 && (value =? 0);
     Event.L3_up := axis 1 && (value <? 0);
     Event.L3_down := axis 1 && (0 <? value);
     Event.L3_left := axis 0 && (value <? 0);
     Event.L3_right := axis 0 && (0 <? value);
     Event.circle_pressed := button 1 && (value =? 1);
     Event.circle_released := button 1 && (value =? 0);
     Event.x_pressed := button 0 && (value =? 1);
     Event.x_released := button 0 && (value =? 0);
     Event.triangle_pressed := button 2 && (value =? 1);
     Event.triangle_released := button 2 && (value =? 0);
     Event.square_pressed := button 3 && (value =? 1);
     Event.square_released := button 3 && (value =? 0);
     Event.L1_pressed := button 4 && (value =? 1);
     Event.L1_released := button 4 && (value =? 0);
     Event.L2_pressed := axis 2 && (-32767 <? value);
     Event.L2_released := axis 2 && (value =? -32767);
     Event.R1_pressed := button 5 && (value =? 1);
     Event.R1_released := button 5 && (value =? 0);
     Event.R2_pressed := axis 5 && (-32767 <? value);
     Event.R2_released := axis 5 && (value =? -32767);
     Event.options_pressed := button 9 && (value =? 1);
     Event.options_released := button 9 && (value =? 0);
     Event.left_right_arrow_released := axis 6 && (value =? 0);
     Event.up_down_arrow_released := axis 7 && (value =? 0);
     Event.left_arrow_pressed := axis 6 && (value <? 0);
     Event.right_arrow_pressed := axis 6 && (0 <? value);
     Event.up_arrow_pressed := axis 7 && (value <? 0);
     Event.down_arrow_pressed := axis 7 && (0 <? value);
     Event.playstation_button_pressed := button 10 && (value =? 1);
     Event.playstation_button_released := button 10 && (value =? 0);
     Event.share_pressed := button 8 && (value =? 1);
     Event.share_released := button 8 && (value =? 0);
     Event.R3_pressed := button 12 && (value =? 1);
     Event.R3_released := button 12 && (value =? 0);
     Event.L3_pressed := button 11 && (value =? 1);
     Event.L3_released := button 11 && (value =? 0) |}.

(** [Controller("/dev/input/js0")] of example.py, with the sample mapping. *)
Definition sample_controller : Controller :=
  Controller_init "/dev/input/js0" default_event_format sample_mapping.

(** Eight-byte records of the default layout: the first three bytes are
    [button_id], [button_type] and [value]. *)
Definition circle_pressed_record : list byte :=
  [x01; x01; x01; x00; x00; x00; x00; x00].
Definition circle_released_record : list byte :=
  [x01; x01; x00; x00; x00; x00; x00; x00].
Definition x_pressed_record : list byte :=
  [x00; x01; x01; x00; x00; x00; x00; x00].

(** The path is there at the first poll; three full records, then the end
    of the stream. *)
Definition end_of_stream_env : Environment :=
  {| path_exists := fun _ => true;
     device := [Bytes circle_pressed_record; Bytes circle_released_record;
                Bytes x_pressed_record; Bytes []] |}.

(** Three full records, then a read torn after three bytes. *)
Definition torn_read_env : Environment :=
  {| path_exists := fun _ => true;
     device := [Bytes circle_pressed_record; Bytes circle_released_record;
                Bytes x_pressed_record; Bytes [x01; x01; x01]] |}.

(** The path appears exactly at the last of the 30 default polls. *)
Definition last_poll_env : Environment :=
  {| path_exists := fun k => Nat.eqb k 29;
     device := [Bytes circle_pressed_record] |}.

(** The path never appears. *)
Definition no_device_env : Environment :=
  {| path_exists := fun _ => false;
     device := [Bytes circle_pressed_record] |}.

(** Only the right arrow is held: the state after a right-arrow press. *)
Definition right_arrow_held : Controller :=
  _handle_event sample_controller 6 2 1 [].

(** Circle is held: the state after a circle press. *)
Definition circle_held : Controller :=
  _handle_event sample_controller 1 1 1 [].

(** ** to_dict and get_current_state (lines 41-64, 116-120) *)

(** The values a snapshot dictionary holds: Python [bool]s and [int]s. *)
Inductive pyvalue : Type :=
| PyBool (b : bool)
| PyInt (n : Z).

(** A dictionary with string keys, in insertion order. *)
Definition dict : Type := list (string * pyvalue).

(** [d[key]]; [None] stands for [KeyError]. *)
Fixpoint dict_get (key : string) (d : dict) : option pyvalue :=
  match d with
  | [] => None
  | (k, v) :: d' => if String.eqb key k then Some v else dict_get key d'
  end.

Definition to_dict (s : ControllerState) : dict :=
  [("x_button", PyBool (x_button s));
   ("triangle_button", PyBool (triangle_button s));
   ("circle_button", PyBool (circle_button s));
   ("square_button", PyBool (square_button s));
   ("L1_button", PyBool (L1_button s));
   ("L2_button", PyInt (L2_button s));
   ("L3_button", PyBool (L3_button s));
   ("R1_button", PyBool (R1_button s));
   ("R2_button", PyInt (R2_button s));
   ("R3_button", PyBool (R3_button s));
   ("up_arrow", PyBool (up_arrow s));
   ("down_arrow", PyBool (down_arrow s));
   ("left_arrow", PyBool (left_arrow s));
   ("right_arrow", PyBool (right_arrow s));
   ("L3_x_axis", PyInt (L3_x_axis s));
   ("L3_y_axis", PyInt (L3_y_axis s));
   ("R3_x_axis", PyInt (R3_x_axis s));
   ("R3_y_axis", PyInt (R3_y_axis s));
   ("share_button", PyBool (share_button s));
   ("options_button", PyBool (options_button s));
   ("playstation_button", PyBool (playstation_button s))].

Definition get_current_state (self : Controller) : dict :=
  to_dict (state self).

(** The attribute name of a field and the value it holds. *)
Definition field_name (f : field) : string :=
  match f with
  | F_x_button => "x_button"
  | F_triangle_button => "triangle_button"
  | F_circle_button => "circle_button"
  | F_square_button => "square_button"
  | F_L1_button => "L1_button"
  | F_L2_button => "L2_button"
  | F_L3_button => "L3_button"
  | F_R1_button => "R1_button"
  | F_R2_button => "R2_button"
  | F_R3_button => "R3_button"
  | F_up_arrow => "up_arrow"
  | F_down_arrow => "down_arrow"
  | F_left_arrow => "left_arrow"
  | F_right_arrow => "right_arrow"
  | F_L3_x_axis => "L3_x_axis"
  | F_L3_y_axis => "L3_y_axis"
  | F_R3_x_axis => "R3_x_axis"
  | F_R3_y_axis => "R3_y_axis"
  | F_share_button => "share_button"
  | F_options_button => "options_button"
  | F_playstation_button => "playstation_button"
  end.

Definition field_value (f : field) (s : ControllerState) : pyvalue :=
  match f with
  | F_x_button => PyBool (x_button s)
  | F_triangle_button => PyBool (triangle_button s)
  | F_circle_button => PyBool (circle_button s)
  | F_square_button => PyBool (square_button s)
  | F_L1_button => PyBool (L1_button s)
  | F_L2_button => PyInt (L2_button s)
  | F_L3_button => PyBool (L3_button s)
  | F_R1_button => PyBool (R1_button s)
  | F_R2_button => PyInt (R2_button s)
  | F_R3_button => PyBool (R3_button s)
  | F_up_arrow => PyBool (up_arrow s)
  | F_down_arrow => PyBool (down_arrow s)
  | F_left_arrow => PyBool (left_arrow s)
  | F_right_arrow => PyBool (right_arrow s)
  | F_L3_x_axis => PyInt (L3_x_axis s)
  | F_L3_y_axis => PyInt (L3_y_axis s)
  | F_R3_x_axis => PyInt (R3_x_axis s)
  | F_R3_y_axis => PyInt (R3_y_axis s)
  | F_share_button => PyBool (share_button s)
  | F_options_button => PyBool (options_button s)
  | F_playstation_button => PyBool (playstation_button s)
  end.

(** ** start_listening (lines 96-106)

    Clears the stop flag and runs [listen(timeout)] on a new daemon thread;
    the result is the run of that thread. *)
Definition start_listening (timeout : Z) (env : Environment)
    (self : Controller) : Run :=
  listen timeout env (set_stop false self).

(** ** state_updates (lines 122-131)

    One turn of the [while not self.stop] loop of the generator, with the
    reader thread standing still: the generator ends when the stop flag is
    set; otherwise [get(timeout=1)] either takes the oldest item off the
    queue, and the generator yields [get_current_state()], or raises
    [Empty] after a second, and the loop goes round. *)
Inductive update_step : Type :=
| GeneratorDone
| Update (d : dict) (self' : Controller)
| QueueEmpty.

Definition state_updates_step (self : Controller) : update_step :=
  if stop self then GeneratorDone
  else
    match _state_queue self with
    | [] => QueueEmpty
    | _ :: queue =>
        let self' := set_state_queue queue self in
        Update (get_current_state self') self'
    end.

(** At most [rounds] turns of the loop: the dictionaries yielded, in
    order, and the controller afterwards. *)
Fixpoint state_updates (rounds : nat) (self : Controller)
    : list dict * Controller :=
  match rounds with
  | O => ([], self)
  | S rounds' =>
      match state_updates_step self with
      | GeneratorDone => ([], self)
      | QueueEmpty => state_updates rounds' self
      | Update d self' =>
          let '(ds, self'') := state_updates rounds' self' in
          (d :: ds, self'')
      end
  end.

(** ** The loop body of [listen], record by record *)

(** Lines 161-162 on an unpacked record
    [(overflow, value, button_type, button_id)]. *)
Definition process_record (self : Controller)
    (fields : list Z * Z * Z * Z) : Controller :=
  let '(overflow, value, button_type, button_id) := fields in
  state_queue_put (_handle_event self button_id button_type value overflow).

(** The unpacked records a trace hands to [_handle_event], in order. *)
Fixpoint handled_events (tr : list action) : list (list Z * Z * Z * Z) :=
  match tr with
  | [] => []
  | HandleEvent button_id button_type value overflow :: tr' =>
      (overflow, value, button_type, button_id) :: handled_events tr'
  | _ :: tr' => handled_events tr'
  end.

(** The actions of the loop on records [recs] that unpack to [evs]. *)
Fixpoint records_trace (recs : list (list byte))
    (evs : list (list Z * Z * Z * Z)) : list action :=
  match recs, evs with
  | bs :: recs', (overflow, value, button_type, button_id) :: evs' =>
      Read bs :: HandleEvent button_id button_type value overflow
      :: QueuePut :: records_trace recs' evs'
  | _, _ => []
  end.

Definition is_interrupt (d : device_event) : bool :=
  match d with KeyboardInterrupt => true | _ => false end.

(** ** More concrete runs *)

(** A controller on which [stop_listening] has been called. *)
Definition stopped_controller : Controller :=
  stop_listening sample_controller.

(** Two records, a stop request from another thread, one more record. *)
Definition stop_request_env : Environment :=
  {| path_exists := fun _ => true;
     device := [Bytes circle_pressed_record; Bytes circle_released_record;
                StopRequest; Bytes x_pressed_record; Bytes []] |}.

(** Two records, then the user interrupts. *)
Definition interrupt_env : Environment :=
  {| path_exists := fun _ => true;
     device := [Bytes circle_pressed_record; Bytes circle_released_record;
                KeyboardInterrupt; Bytes x_pressed_record] |}.

(** A mapping whose every query answers yes, to watch the order of the
    chain at work. *)
Definition eager_mapping : EventDefinition :=
  fun _ _ value _ _ _ =>
  {| Event.value := value;
     Event.R3_event := true;
     Event.R3_y_at_rest := true;
     Event.R3_x_at_rest := true;
     Event.R3_right := true;
     Event.R3_left := true;
     Event.R3_up := true;
     Event.R3_down := true;
     Event.L3_event := true;
     Event.L3_y_at_rest := true;
     Event.L3_x_at_rest := true;
     Event.L3_up := true;
     Event.L3_down := true;
     Event.L3_left := true;
     Event.L3_right := true;
     Event.circle_pressed := true;
     Event.circle_released := true;
     Event.x_pressed := true;
     Event.x_released := true;
     Event.triangle_pressed := true;
     Event.triangle_released := true;
     Event.square_pressed := true;
     Event.square_released := true;
     Event.L1_pressed := true;
     Event.L1_released := true;
     Event.L2_pressed := true;
     Event.L2_released := true;
     Event.R1_pressed := true;
     Event.R1_released := true;
     Event.R2_pressed := true;
     Event.R2_released := true;
     Event.options_pressed := true;
     Event.options_released := true;
     Event.left_right_arrow_released := true;
     Event.up_down_arrow_released := true;
     Event.left_arrow_pressed := true;
     Event.right_arrow_pressed := true;
     Event.up_arrow_pressed := true;
     Event.down_arrow_pressed := true;
     Event.playstation_button_pressed := true;
     Event.playstation_button_released := true;
     Event.share_pressed := true;
     Event.share_released := true;
     Event.R3_pressed := true;
     Event.R3_released := true;
     Event.L3_pressed := true;
     Event.L3_released := true |}.

Definition eager_controller : Controller :=
  Controller_init "/dev/input/js0" default_event_format eager_mapping.

(** * Properties *)

(** ** The chain and the match agree *)

(** Splits on the first test of an [if] chain, outermost first. *)
Ltac split_chain :=
  repeat match goal with
         | |- context [if ?p ?e then _ else _] =>
             let H := fresh "Q" in destruct (p e) eqn:H; cbn [negb]
         end.

Lemma handle_event_reduce (self : Controller)
    (button_id button_type value : Z) (overflow : list Z) :
  let event := event_of self button_id button_type value overflow in
  _handle_event self button_id button_type value overflow
  = reduce (classify event) (Event.value event) self.
Proof.
  intros event. unfold _handle_event.
  change (event_definition self button_id button_type value false overflow
            (debug self)) with event.
  generalize event; clear event; intro event.
  unfold classify, classify_right_stick, classify_left_stick.
  split_chain; try reflexivity.
  destruct self; reflexivity.
Qed.

(** What [_handle_event] does to each attribute of the controller. *)
Lemma handle_event_state (self : Controller)
    (button_id button_type value : Z) (overflow : list Z) :
  let event := event_of self button_id button_type value overflow in
  state (_handle_event self button_id button_type value overflow)
  = update (classify event) (Event.value event) (state self).
Proof.
  intros event. rewrite handle_event_reduce. fold event. unfold reduce.
  destruct (label_of (classify event)); reflexivity.
Qed.

Lemma handle_event_history (self : Controller)
    (button_id button_type value : Z) (overflow : list Z) :
  let event := event_of self button_id button_type value overflow in
  event_history (_handle_event self button_id button_type value overflow)
  = event_history self
    ++ match label_of (classify event) with
       | Some label => [label]
       | None => []
       end.
Proof.
  intros event. rewrite handle_event_reduce. fold event. unfold reduce.
  destruct (label_of (classify event)); cbn.
  - reflexivity.
  - now rewrite app_nil_r.
Qed.

Lemma handle_event_frame (self : Controller)
    (button_id button_type value : Z) (overflow : list Z) :
  let self' := _handle_event self button_id button_type value overflow in
  stop self' = stop self
  /\ is_connected self' = is_connected self
  /\ event_format self' = event_format self
  /\ event_size self' = event_size self
  /\ _state_queue self' = _state_queue self.
Proof.
  cbv zeta. rewrite handle_event_reduce. unfold reduce.
  destruct (label_of _); cbn; repeat split.
Qed.

(** Writing back the value a field already holds changes nothing. *)
Lemma set_button_same (b : button) (s : ControllerState) :
  set_button b (button_flag b s) s = s.
Proof. destruct b, s; reflexivity. Qed.

(** The scenario of the specification: circle pressed, circle released,
    L2 pressed with value 12000, L2 released. *)
Example press_release_scenario :
  let c1 := _handle_event sample_controller 1 1 1 [] in
  let c2 := _handle_event c1 1 1 0 [] in
  let c3 := _handle_event c2 2 2 12000 [] in
  let c4 := _handle_event c3 2 2 (-32767) [] in
  circle_button (state c4) = false
  /\ L2_button (state c3) = 12000
  /\ L2_button (state c4) = -32767
  /\ event_history c4 = ["circle"; "L2"].
Proof. repeat split. Qed.

(** ** The directional pad *)

(** C3. An event that decodes to the combined left+right release sets both
    the left and the right flag to false, whatever they were, and touches
    nothing else; the combined up+down release does the same to the
    vertical flags.  An event that decodes to the press of one arrow sets
    the flag of that arrow to true and touches nothing else.  No event
    clears one arrow alone: whenever the flag of an arrow goes from true to
    false, the event is the combined release of its axis and the opposite
    flag is false as well. *)
Theorem dpad_release_is_combined (self : Controller)
    (button_id button_type value : Z) (overflow : list Z) :
  let event := event_of self button_id button_type value overflow in
  let s := state self in
  let s' := state (_handle_event self button_id button_type value overflow) in
  (classify event = LeftRightReleased ->
     left_arrow s' = false /\ right_arrow s' = false
     /\ s' = set_right_arrow false (set_left_arrow false s))
  /\ (classify event = UpDownReleased ->
        up_arrow s' = false /\ down_arrow s' = false
        /\ s' = set_down_arrow false (set_up_arrow false s))
  /\ (forall a, classify event = ArrowPressed a ->
        arrow_flag a s' = true /\ s' = set_arrow a true s)
  /\ (forall a, arrow_flag a s = true -> arrow_flag a s' = false ->
        classify event = combined_release a
        /\ arrow_flag (opposite a) s' = false).
Proof.
  intros event s s'. subst s'. rewrite handle_event_state. fold event s.
  clearbody event s. repeat apply conj.
  - intros Hsem. rewrite Hsem. repeat split.
  - intros Hsem. rewrite Hsem. repeat split.
  - intros a Hsem. rewrite Hsem. split; [|reflexivity].
    destruct a; reflexivity.
  - intros a Hheld Hcleared.
    destruct (classify event) as [m|m|b|b|t|t| | |a'|];
      try destruct m; try destruct b; try destruct t; try destruct a';
      destruct a; cbn in *; split; congruence.
Qed.

Lemma dpad_release_is_combined_witness :
  left_arrow (state right_arrow_held) = false
  /\ right_arrow (state right_arrow_held) = true
  /\ classify (event_of right_arrow_held 6 2 0 []) = LeftRightReleased
  /\ left_arrow (state (_handle_event right_arrow_held 6 2 0 [])) = false
  /\ right_arrow (state (_handle_event right_arrow_held 6 2 0 [])) = false.
Proof.
  split; [reflexivity|]. split; [reflexivity|]. split; [reflexivity|].
  destruct (dpad_release_is_combined right_arrow_held 6 2 0 []) as [H _].
  destruct (H eq_refl) as (Hl & Hr & _). split; assumption.
Defined.

(** A combined release with both flags of its axis already false changes
    nothing. *)
Lemma combined_release_idempotent (self : Controller)
    (button_id button_type value : Z) (overflow : list Z) (a : arrow) :
  let event := event_of self button_id button_type value overflow in
  classify event = combined_release a ->
  arrow_flag a (state self) = false ->
  arrow_flag (opposite a) (state self) = false ->
  state (_handle_event self button_id button_type value overflow)
  = state self.
Proof.
  intros event Hsem Ha Hopp. rewrite handle_event_state. fold event.
  rewrite Hsem. destruct (state self), a; cbn in *; subst; reflexivity.
Qed.

(** ** Triggers *)

(** C4. After an event that decodes to R2 released, the R2 field is the
    rest sentinel -32767, and so not 0; likewise for L2.  After an event
    that decodes to L2 pressed or R2 pressed, the field holds the value of
    the event. *)
Theorem trigger_rest_sentinel (self : Controller)
    (button_id button_type value : Z) (overflow : list Z) :
  let event := event_of self button_id button_type value overflow in
  let s' := state (_handle_event self button_id button_type value overflow) in
  (classify event = TriggerReleased TR2 ->
     R2_button s' = -32767 /\ R2_button s' <> 0)
  /\ (classify event = TriggerReleased TL2 ->
        L2_button s' = -32767 /\ L2_button s' <> 0)
  /\ (classify event = TriggerPressed TL2 ->
        L2_button s' = Event.value event)
  /\ (classify event = TriggerPressed TR2 ->
        R2_button s' = Event.value event).
Proof.
  intros event s'. subst s'. rewrite handle_event_state. fold event.
  repeat split; intros; rewrite H; cbn; try reflexivity; lia.
Qed.

Lemma trigger_rest_sentinel_witness :
  classify (event_of sample_controller 5 2 12000 []) = TriggerPressed TR2
  /\ R2_button (state (_handle_event sample_controller 5 2 12000 [])) = 12000
  /\ classify (event_of (_handle_event sample_controller 5 2 12000 [])
                 5 2 (-32767) [])
     = TriggerReleased TR2
  /\ R2_button (state (_handle_event
                         (_handle_event sample_controller 5 2 12000 [])
                         5 2 (-32767) [])) = -32767.
Proof.
  split; [reflexivity|]. split.
  - exact (proj2 (proj2 (proj2
             (trigger_rest_sentinel sample_controller 5 2 12000 [])))
             eq_refl).
  - split; [reflexivity|].
    exact (proj1 (proj1
             (trigger_rest_sentinel
                (_handle_event sample_controller 5 2 12000 [])
                5 2 (-32767) []) eq_refl)).
Defined.

(** ** Sticks *)

(** C5. After an event that decodes to L3 y at rest, the y axis of the left
    stick is 0 and its x axis is what it was; after an event that decodes
    to L3 x at rest, the x axis is 0 and the y axis is what it was. *)
Theorem stick_rest_zeroes_one_axis (self : Controller)
    (button_id button_type value : Z) (overflow : list Z) :
  let event := event_of self button_id button_type value overflow in
  let s := state self in
  let s' := state (_handle_event self button_id button_type value overflow) in
  (classify event = LeftStick YAtRest ->
     L3_y_axis s' = 0 /\ L3_x_axis s' = L3_x_axis s)
  /\ (classify event = LeftStick XAtRest ->
        L3_x_axis s' = 0 /\ L3_y_axis s' = L3_y_axis s).
Proof.
  intros event s s'. subst s'. rewrite handle_event_state. fold event s.
  split; intros H; rewrite H; split; reflexivity.
Qed.

Lemma stick_rest_zeroes_one_axis_witness :
  let moved := _handle_event (_handle_event sample_controller 0 2 (-200) [])
                 1 2 300 [] in
  L3_x_axis (state moved) = -200
  /\ L3_y_axis (state moved) = 300
  /\ classify (event_of moved 1 2 0 []) = LeftStick YAtRest
  /\ L3_y_axis (state (_handle_event moved 1 2 0 [])) = 0
  /\ L3_x_axis (state (_handle_event moved 1 2 0 [])) = -200.
Proof.
  intros moved.
  split; [reflexivity|]. split; [reflexivity|]. split; [reflexivity|].
  destruct (stick_rest_zeroes_one_axis moved 1 2 0 []) as [H _].
  destruct (H eq_refl) as [Hy Hx]. split; [exact Hy|].
  rewrite Hx. reflexivity.
Defined.

(** ** Releasing a released button *)

(** C8. If the flag of a digital button is already false, an event that
    decodes to the release of that button leaves every field of the
    snapshot as it was (and appends nothing to the history). *)
Theorem release_idempotent (self : Controller)
    (button_id button_type value : Z) (overflow : list Z) (b : button) :
  let event := event_of self button_id button_type value overflow in
  let self' := _handle_event self button_id button_type value overflow in
  classify event = Released b ->
  button_flag b (state self) = false ->
  state self' = state self /\ event_history self' = event_history self.
Proof.
  intros event self' Hrel Hflag. subst self'. split.
  - rewrite handle_event_state. fold event. rewrite Hrel. cbn.
    rewrite <- Hflag. apply set_button_same.
  - rewrite handle_event_history. fold event. rewrite Hrel. cbn.
    apply app_nil_r.
Qed.

Lemma release_idempotent_witness :
  classify (event_of sample_controller 1 1 0 []) = Released BCircle
  /\ circle_button (state sample_controller) = false
  /\ state (_handle_event sample_controller 1 1 0 [])
     = state sample_controller.
Proof.
  split; [reflexivity|]. split; [reflexivity|].
  exact (proj1 (release_idempotent sample_controller 1 1 0 [] BCircle
                  eq_refl eq_refl)).
Defined.

(** ** Labels *)




(** ** Frame *)

(** [filter] without the duplication of its tail, so that it can be
    evaluated with tests that are still open. *)
Lemma filter_as_flat_map {A : Type} (p : A -> bool) (l : list A) :
  filter p l = flat_map (fun x => if p x then [x] else []) l.
Proof.
  induction l as [|x l IH]; cbn; [reflexivity|].
  rewrite IH. destruct (p x); reflexivity.
Qed.

Ltac settle_changed :=
  unfold changed_fields; rewrite filter_as_flat_map; cbn;
  rewrite ?Bool.eqb_reflx, ?Z.eqb_refl; cbn;
  repeat match goal with
         | |- context [if negb ?c then _ else _] => destruct c eqn:?; cbn
         end.

Lemma changed_fields_category (sem : SemanticEvent) (v : Z)
    (s : ControllerState) (f : field) :
  In f (changed_fields s (update sem v s)) ->
  event_category sem = Some (field_category f).
Proof.
  destruct s.
  destruct sem as [m|m|b|b|t|t| | |a|];
    try destruct m; try destruct b; try destruct t; try destruct a;
    settle_changed; cbn; intuition (subst; reflexivity).
Qed.

Lemma changed_fields_at_most_one (sem : SemanticEvent) (v : Z)
    (s : ControllerState) :
  sem <> LeftRightReleased -> sem <> UpDownReleased ->
  (List.length (changed_fields s (update sem v s)) <= 1)%nat.
Proof.
  intros Hlr Hud. destruct s.
  destruct sem as [m|m|b|b|t|t| | |a|];
    try destruct m; try destruct b; try destruct t; try destruct a;
    try congruence;
    settle_changed; cbn; lia.
Qed.

(** C10. Every field an event changes belongs to the dispatch category of
    the branch the event falls into; fields of the other categories keep
    their value.  An event changes at most one field, except the combined
    left+right release and the combined up+down release: each of these
    writes false to exactly the two flags of its axis and changes no other
    field. *)
Theorem one_category_one_field (self : Controller)
    (button_id button_type value : Z) (overflow : list Z) :
  let event := event_of self button_id button_type value overflow in
  let s := state self in
  let s' := state (_handle_event self button_id button_type value overflow) in
  (forall f, In f (changed_fields s s') ->
     event_category (classify event) = Some (field_category f))
  /\ (forall f, event_category (classify event) <> Some (field_category f) ->
        field_same f s s' = true)
  /\ (classify event <> LeftRightReleased ->
      classify event <> UpDownReleased ->
        (List.length (changed_fields s s') <= 1)%nat)
  /\ (classify event = LeftRightReleased ->
        s' = set_right_arrow false (set_left_arrow false s)
        /\ incl (changed_fields s s') [F_left_arrow; F_right_arrow]
        /\ (left_arrow s = true -> right_arrow s = true ->
            changed_fields s s' = [F_left_arrow; F_right_arrow]))
  /\ (classify event = UpDownReleased ->
        s' = set_down_arrow false (set_up_arrow false s)
        /\ incl (changed_fields s s') [F_up_arrow; F_down_arrow]
        /\ (up_arrow s = true -> down_arrow s = true ->
            changed_fields s s' = [F_up_arrow; F_down_arrow])).
Proof.
  intros event s s'. subst s'. rewrite handle_event_state. fold event s.
  clearbody event s.
  assert (Hcat : forall f,
             In f (changed_fields s
                     (update (classify event) (Event.value event) s)) ->
             event_category (classify event) = Some (field_category f))
    by (intros f; apply changed_fields_category).
  repeat apply conj.
  - exact Hcat.
  - intros f Hf.
    destruct (field_same f s (update (classify event) (Event.value event) s))
      eqn:Hsame; [reflexivity|].
    exfalso. apply Hf, Hcat. unfold changed_fields.
    apply filter_In. split.
    + destruct f; cbn; tauto.
    + rewrite Hsame. reflexivity.
  - apply changed_fields_at_most_one.
  - intros H. rewrite H. split; [reflexivity|]. split.
    + clear Hcat. destruct s; settle_changed; unfold incl; cbn; tauto.
    + clear Hcat. intros Hfirst Hsecond.
      destruct s; cbn in Hfirst, Hsecond; subst.
      settle_changed. reflexivity.
  - intros H. rewrite H. split; [reflexivity|]. split.
    + clear Hcat. destruct s; settle_changed; unfold incl; cbn; tauto.
    + clear Hcat. intros Hfirst Hsecond.
      destruct s; cbn in Hfirst, Hsecond; subst.
      settle_changed. reflexivity.
Qed.

Lemma one_category_one_field_witness :
  classify (event_of right_arrow_held 6 2 0 []) = LeftRightReleased
  /\ incl (changed_fields (state right_arrow_held)
             (state (_handle_event right_arrow_held 6 2 0 [])))
          [F_left_arrow; F_right_arrow]
  /\ classify (event_of circle_held 1 1 0 []) = Released BCircle
  /\ (List.length (changed_fields (state circle_held)
                     (state (_handle_event circle_held 1 1 0 []))) <= 1)%nat.
Proof.
  split; [reflexivity|]. split.
  - pose proof (one_category_one_field right_arrow_held 6 2 0 [])
      as (_ & _ & _ & H & _).
    exact (proj1 (proj2 (H eq_refl))).
  - split; [reflexivity|].
    pose proof (one_category_one_field circle_held 1 1 0 [])
      as (_ & _ & H & _).
    apply H; discriminate.
Defined.

(** ** Counting in traces *)

Lemma count_app (p : action -> bool) (a b : list action) :
  count p (a ++ b) = (count p a + count p b)%nat.
Proof. unfold count. now rewrite filter_app, length_app. Qed.

Lemma count_failed_polls (p : action -> bool) (k : nat) :
  count p (failed_polls k)
  = ((if p (PathExists false) then k else 0)
     + (if p Sleep then k else 0))%nat.
Proof.
  induction k as [|k IH]; cbn.
  - now destruct (p (PathExists false)), (p Sleep).
  - unfold count in *. cbn.
    destruct (p (PathExists false)), (p Sleep); cbn; rewrite IH; lia.
Qed.

(** ** The liveness gate *)

(** The polling loop either finds the path at its first appearance [j],
    after [j] failed polls, or fails after [attempts] failed polls. *)
Lemma wait_loop_cases (pe : nat -> bool) (attempts : nat) :
  forall (k : nat) (self : Controller),
  (exists j, (j < attempts)%nat
             /\ pe (k + j)%nat = true
             /\ (forall i, (i < j)%nat -> pe (k + i)%nat = false)
             /\ wait_loop pe k attempts self
                = (true, on_connect_callback self,
                   failed_polls j ++ [PathExists true]))
  \/ ((forall j, (j < attempts)%nat -> pe (k + j)%nat = false)
      /\ wait_loop pe k attempts self
         = (false, on_disconnect_callback self, failed_polls attempts)).
Proof.
  induction attempts as [|n IH]; intros k self; cbn.
  - right. split; [intros j Hj; lia | reflexivity].
  - destruct (pe k) eqn:Hk.
    + left. exists 0%nat. rewrite Nat.add_0_r.
      repeat split; [lia | assumption | intros i Hi; lia].
    + destruct (IH (S k) self) as [(j & Hj & Hpe & Hfirst & Hw)|(Hall & Hw)];
        rewrite Hw.
      * left. exists (S j). rewrite Nat.add_succ_r.
        repeat split; [lia | assumption | ].
        intros [|i] Hi; [now rewrite Nat.add_0_r|].
        rewrite Nat.add_succ_r. apply Hfirst. lia.
      * right. split; [|reflexivity].
        intros [|j] Hj; [now rewrite Nat.add_0_r|].
        rewrite Nat.add_succ_r. apply Hall. lia.
Qed.

(** C6. The gate polls at most [timeout] times, with one sleep after each
    poll that did not find the path.  If the path exists at some permitted
    poll, the last one included, the gate stops at the first such poll,
    sets the connected flag and reports success, and [listen] opens the
    device.  If no permitted poll finds the path, the gate clears the
    connected flag and reports failure after [timeout] polls, and [listen]
    returns without opening the device or reading a record. *)
Theorem liveness_gate (timeout : Z) (env : Environment) (self : Controller) :
  let n := Z.to_nat timeout in
  let gate := wait_for_interface timeout env self in
  let found := fst (fst gate) in
  let self' := snd (fst gate) in
  let polls := snd gate in
  let r := listen timeout env self in
  (forall k, (k < n)%nat -> path_exists env k = true ->
     found = true /\ is_connected self' = true /\ In Open (trace r)
     /\ ((forall i, (i < k)%nat -> path_exists env i = false) ->
         polls = failed_polls k ++ [PathExists true]))
  /\ ((forall k, (k < n)%nat -> path_exists env k = false) ->
        found = false /\ is_connected self' = false
        /\ polls = failed_polls n
        /\ r = {| result := Returned;
                  final := on_disconnect_callback self;
                  trace := failed_polls n |}
        /\ count is_open (trace r) = 0%nat
        /\ count is_read (trace r) = 0%nat)
  /\ (count is_poll polls <= n)%nat
  /\ (count is_sleep polls <= count is_poll polls)%nat.
Proof.
  intros n gate found self' polls r.
  subst r found self' polls gate. unfold listen, wait_for_interface.
  fold n.
  destruct (wait_loop_cases (path_exists env) n 0%nat self)
    as [(j & Hj & Hpe & Hfirst & Hw)|(Hall & Hw)]; rewrite Hw;
    cbn [fst snd].
  - cbn in Hpe, Hfirst. repeat apply conj.
    + intros k Hk Hfound. repeat apply conj; try reflexivity.
      * cbn [after trace]. apply in_or_app. left.
        apply in_or_app. right. now left.
      * intros Hbefore.
        assert (j = k) as ->; [|reflexivity].
        destruct (Nat.lt_trichotomy j k) as [Hlt|[Heq|Hgt]].
        -- rewrite (Hbefore j Hlt) in Hpe. discriminate.
        -- exact Heq.
        -- rewrite (Hfirst k Hgt) in Hfound. discriminate.
    + intros Hnone. rewrite (Hnone j Hj) in Hpe. discriminate.
    + rewrite count_app, count_failed_polls. cbn. lia.
    + rewrite !count_app, !count_failed_polls. cbn. lia.
  - cbn in Hall. repeat apply conj.
    + intros k Hk Hfound. rewrite (Hall k Hk) in Hfound. discriminate.
    + intros _. repeat apply conj; try reflexivity;
        cbn [trace]; apply count_failed_polls.
    + rewrite count_failed_polls. cbn. lia.
    + rewrite !count_failed_polls. cbn. lia.
Qed.

Lemma liveness_gate_witness :
  (29 < Z.to_nat default_timeout)%nat
  /\ path_exists last_poll_env 29 = true
  /\ fst (fst (wait_for_interface default_timeout last_poll_env
                 sample_controller)) = true
  /\ (forall k, (k < Z.to_nat 2)%nat -> path_exists no_device_env k = false)
  /\ listen 2 no_device_env sample_controller
     = {| result := Returned;
          final := on_disconnect_callback sample_controller;
          trace := failed_polls (Z.to_nat 2) |}.
Proof.
  assert (Hlast : (29 < Z.to_nat default_timeout)%nat) by (cbn; lia).
  assert (Hnone : forall k, (k < Z.to_nat 2)%nat ->
                            path_exists no_device_env k = false)
    by reflexivity.
  split; [exact Hlast|]. split; [reflexivity|]. split.
  - exact (proj1 (proj1 (liveness_gate default_timeout last_poll_env
                           sample_controller) 29%nat Hlast eq_refl)).
  - split; [exact Hnone|].
    pose proof (proj1 (proj2 (liveness_gate 2 no_device_env
                                sample_controller)) Hnone)
      as (_ & _ & _ & H & _).
    exact H.
Defined.

(** ** The read loop *)

(** Polls, sleeps and the open neither handle a record nor signal. *)
Lemma gate_trace_quiet (j : nat) (tail : list action) (tr : list action) :
  signal_follows_each_record ((failed_polls j ++ tail) ++ tr)
  = signal_follows_each_record (tail ++ tr).
Proof.
  rewrite <- app_assoc. induction j as [|j IH]; [reflexivity|exact IH].
Qed.

Lemma handled_failed_polls (j : nat) :
  handled (failed_polls j) = 0%nat /\ signals (failed_polls j) = 0%nat.
Proof. split; apply count_failed_polls. Qed.

(** One pass of the loop body: the signal is put on the queue of the
    controller [_handle_event] returns. *)
Lemma read_loop_signals (dev : list device_event) :
  forall self : Controller,
  let r := read_loop dev self in
  signal_follows_each_record (trace r) = true
  /\ signals (trace r) = handled (trace r)
  /\ _state_queue (final r)
     = _state_queue self ++ repeat true (handled (trace r)).
Proof.
  induction dev as [|[event| |] dev IH]; intros self; cbn.
  - repeat split. now rewrite app_nil_r.
  - destruct (negb (stop self) && negb (is_empty event)).
    + destruct (_unpack_event self event)
        as [e|[[[overflow value] button_type] button_id]]; cbn.
      * repeat split. now rewrite app_nil_r.
      * specialize (IH (state_queue_put
                          (_handle_event self button_id button_type value
                             overflow))).
        destruct IH as (Hfollow & Hcount & Hqueue).
        repeat split.
        -- exact Hfollow.
        -- unfold signals, handled, count in *. cbn. now rewrite Hcount.
        -- rewrite Hqueue. cbn [state_queue_put set_state_queue _state_queue].
           destruct (handle_event_frame self button_id button_type value
                       overflow) as (_ & _ & _ & _ & Hq).
           rewrite Hq, <- app_assoc. reflexivity.
    + cbn. repeat split. now rewrite app_nil_r.
  - exact (IH (stop_listening self)).
  - repeat split. now rewrite app_nil_r.
Qed.

(** The pairing of records and signals in a whole run. *)
Lemma listen_signals (timeout : Z) (env : Environment) (self : Controller) :
  let r := listen timeout env self in
  signal_follows_each_record (trace r) = true
  /\ signals (trace r) = handled (trace r)
  /\ _state_queue (final r)
     = _state_queue self ++ repeat true (handled (trace r)).
Proof.
  intros r. subst r. unfold listen, wait_for_interface.
  destruct (wait_loop_cases (path_exists env) (Z.to_nat timeout) 0%nat self)
    as [(j & _ & _ & _ & Hw)|(_ & Hw)]; rewrite Hw.
  - destruct (read_loop_signals (device env) (on_connect_callback self))
      as (Hfollow & Hcount & Hqueue).
    cbn [after trace final result]. repeat split.
    + rewrite <- app_assoc, gate_trace_quiet. exact Hfollow.
    + unfold signals, handled in *. rewrite !count_app, !count_failed_polls.
      cbn. exact Hcount.
    + rewrite Hqueue. unfold handled.
      rewrite !count_app, !count_failed_polls. reflexivity.
  - cbn [trace final]. destruct (handled_failed_polls (Z.to_nat timeout))
      as [Hh Hs].
    repeat split.
    + generalize (Z.to_nat timeout). intros n.
      induction n as [|n IH]; [reflexivity|exact IH].
    + now rewrite Hh, Hs.
    + rewrite Hh. cbn. now rewrite app_nil_r.
Qed.

(** ** The history *)

(** Every label the chain appends belongs to exactly one category. *)
Lemma label_of_one_category (sem : SemanticEvent) (label : string) :
  label_of sem = Some label ->
  exists! c, In label (category_labels c).
Proof.
  intros H.
  assert (Hsem : exists c, event_category sem = Some c
                           /\ In label (category_labels c)).
  { destruct sem as [m|m|b|b|t|t| | |a|]; cbn in H; try discriminate;
      injection H as <-; eexists; (split; [reflexivity|]);
      try destruct b; try destruct t; try destruct a; cbn; tauto. }
  destruct Hsem as (c & _ & Hin). exists c. split; [exact Hin|].
  intros c' Hin'.
  destruct c, c'; try reflexivity; exfalso; cbn in Hin, Hin';
    repeat match goal with
           | H : _ \/ _ |- _ => destruct H
           | H : False |- _ => destruct H
           end;
    congruence.
Qed.

Lemma read_loop_history (dev : list device_event) :
  forall self : Controller,
  let r := read_loop dev self in
  exists added,
    event_history (final r) = event_history self ++ added
    /\ (List.length added <= handled (trace r))%nat
    /\ Forall (fun label => exists! c, In label (category_labels c)) added.
Proof.
  induction dev as [|[event| |] dev IH]; intros self; cbn.
  - exists []. rewrite app_nil_r. repeat split; [cbn; lia|constructor].
  - destruct (negb (stop self) && negb (is_empty event)).
    + destruct (_unpack_event self event)
        as [e|[[[overflow value] button_type] button_id]]; cbn.
      * exists []. rewrite app_nil_r. repeat split; [cbn; lia|constructor].
      * destruct (IH (state_queue_put
                        (_handle_event self button_id button_type value
                           overflow)))
          as (added & Hhist & Hlen & Hknown).
        cbn [state_queue_put set_state_queue event_history] in Hhist.
        rewrite handle_event_history in Hhist.
        destruct (label_of (classify (event_of self button_id button_type
                                        value overflow)))
          as [label|] eqn:Hlabel.
        -- exists (label :: added). rewrite Hhist, <- app_assoc.
           repeat split.
           ++ unfold handled, count in *. cbn. lia.
           ++ constructor; [|exact Hknown].
              exact (label_of_one_category _ _ Hlabel).
        -- exists added. rewrite Hhist, app_nil_r. repeat split.
           ++ unfold handled, count in *. cbn. lia.
           ++ exact Hknown.
    + exists []. cbn. rewrite app_nil_r.
      repeat split; [lia|constructor].
  - exact (IH (stop_listening self)).
  - exists []. cbn. rewrite app_nil_r. repeat split; [lia|constructor].
Qed.

(** C7. From a freshly constructed controller, whatever the environment
    delivers, the history is never longer than the number of records
    handled, and every label in it belongs to exactly one of the five
    dispatch categories. *)
Theorem history_bounded_by_records (timeout : Z) (env : Environment)
    (interface : string) (event_format : Struct.format)
    (event_definition : EventDefinition) :
  let r := listen timeout env
             (Controller_init interface event_format event_definition) in
  (List.length (event_history (final r)) <= handled (trace r))%nat
  /\ Forall (fun label => exists! c, In label (category_labels c))
       (event_history (final r)).
Proof.
  intros r. subst r. unfold listen, wait_for_interface.
  set (self := Controller_init interface event_format event_definition).
  destruct (wait_loop_cases (path_exists env) (Z.to_nat timeout) 0%nat self)
    as [(j & _ & _ & _ & Hw)|(_ & Hw)]; rewrite Hw.
  - destruct (read_loop_history (device env) (on_connect_callback self))
      as (added & Hhist & Hlen & Hknown).
    cbn [after trace final]. rewrite Hhist. cbn.
    split; [|exact Hknown].
    unfold handled in *. rewrite !count_app. lia.
  - cbn. split; [lia|constructor].
Qed.

(** ** Full records decode *)

Lemma fields_length (c : Struct.code) (bs : list byte) (n : nat) :
  forall i, List.length (Struct.fields c bs i n) = n.
Proof. induction n as [|n IH]; intros i; cbn; [|rewrite IH]; reflexivity. Qed.

Lemma unpack_from_length (f : Struct.format) (bs : list byte) :
  forall offset,
  List.length (Struct.unpack_from offset f bs) = Struct.field_count f.
Proof.
  induction f as [|[n c] f IH]; intros offset; cbn; [reflexivity|].
  now rewrite length_app, fields_length, IH.
Qed.

Lemma calcsize_from_lower_bound (f : Struct.format) :
  forall offset,
  (offset + Struct.field_count f <= Struct.calcsize_from offset f)%nat.
Proof.
  induction f as [|[n c] f IH]; intros offset; cbn; [lia|].
  specialize (IH (Struct.align offset (Struct.itemsize c)
                  + n * Struct.itemsize c)%nat).
  assert (Halign : (offset <= Struct.align offset (Struct.itemsize c))%nat)
    by (unfold Struct.align; lia).
  assert (Hitem : (n <= n * Struct.itemsize c)%nat)
    by (destruct c; unfold Struct.itemsize; lia).
  fold (Struct.field_count f). lia.
Qed.

(** A record of the full width is not empty and [_unpack_event] accepts
    it. *)
Lemma full_record_decodes (self : Controller) (bs : list byte) :
  layout_ok self ->
  List.length bs = event_size self ->
  is_empty bs = false
  /\ exists fields, _unpack_event self bs = inr fields.
Proof.
  intros [Hsize Hcount] Hlen.
  pose proof (calcsize_from_lower_bound (event_format self) 0) as Hlow.
  fold (Struct.calcsize (event_format self)) in Hlow. split.
  - destruct bs; [cbn in Hlen; lia|reflexivity].
  - unfold _unpack_event, Struct.unpack.
    rewrite Hlen, Hsize, Nat.eqb_refl.
    pose proof (unpack_from_length (event_format self) bs 0) as Hfields.
    destruct (Struct.unpack_from 0 (event_format self) bs)
      as [|e0 [|e1 [|e2 rest]]]; cbn in Hfields; try lia.
    eexists. reflexivity.
Qed.

(** Handling a record keeps the layout, the stop flag and the connected
    flag. *)
Lemma loop_body_frame (self : Controller)
    (button_id button_type value : Z) (overflow : list Z) :
  let self' := state_queue_put
                 (_handle_event self button_id button_type value overflow) in
  (layout_ok self -> layout_ok self')
  /\ event_size self' = event_size self
  /\ stop self' = stop self
  /\ is_connected self' = is_connected self.
Proof.
  destruct (handle_event_frame self button_id button_type value overflow)
    as (Hstop & Hconn & Hfmt & Hsize & _).
  cbn. unfold layout_ok. cbn. rewrite Hfmt, Hsize. tauto.
Qed.

(** ** The end of the stream *)

Lemma read_loop_zero_read (recs : list (list byte))
    (rest : list device_event) :
  forall self : Controller,
  layout_ok self ->
  Forall (fun bs => List.length bs = event_size self) recs ->
  zero_read_next rest = true ->
  let r := read_loop (map Bytes recs ++ rest) self in
  result r = Returned
  /\ is_connected (final r) = is_connected self
  /\ (stop self = false -> handled (trace r) = List.length recs).
Proof.
  intros self Hlayout Hfull Hzero. revert self Hlayout Hfull.
  induction recs as [|bs recs IH]; intros self Hlayout Hfull.
  - cbn [map app List.length].
    destruct rest as [|[bs| |] rest]; cbn in Hzero; try discriminate.
    + cbn. tauto.
    + cbn. rewrite Hzero, andb_false_r. cbn. tauto.
  - inversion Hfull as [|? ? Hbs Hrecs]; subst.
    destruct (full_record_decodes self bs Hlayout Hbs)
      as [Hnonempty [[[[overflow value] button_type] button_id] Hdecode]].
    cbn. rewrite Hnonempty, Hdecode.
    destruct (stop self) eqn:Hstop; cbn.
    + repeat split. discriminate.
    + destruct (loop_body_frame self button_id button_type value overflow)
        as (Hlayout' & Hsize' & Hstop' & Hconn').
      cbv zeta in Hlayout', Hsize', Hstop', Hconn'.
      specialize (IH _ (Hlayout' Hlayout)).
      rewrite Hsize' in IH. specialize (IH Hrecs).
      destruct IH as (Hres & Hconn & Hcount).
      rewrite Hstop', Hstop in Hcount. rewrite Hconn' in Hconn.
      repeat split; try assumption.
      unfold handled, count in *. cbn. now rewrite Hcount.
Qed.

(** C1, as far as the code does it by design.  On a controller whose
    record width is the size of its layout and whose layout has the three
    fields [_unpack_event] indexes, once the gate has found the path, a
    device that delivers full records and then a read of zero bytes makes
    [listen] return normally, with no exception; unless a stop was
    requested, every record before the empty read was handled.  Nothing is
    said here of the connected flag, nor of a read torn inside a record. *)
Theorem zero_read_ends_listen (timeout : Z) (env : Environment)
    (self : Controller) (recs : list (list byte))
    (rest : list device_event) :
  (exists k, (k < Z.to_nat timeout)%nat /\ path_exists env k = true) ->
  layout_ok self ->
  Forall (fun bs => List.length bs = event_size self) recs ->
  device env = map Bytes recs ++ rest ->
  zero_read_next rest = true ->
  let r := listen timeout env self in
  result r = Returned
  /\ (stop self = false -> handled (trace r) = List.length recs).
Proof.
  intros (k & Hk & Hfound) Hlayout Hfull Hdev Hzero r. subst r.
  unfold listen, wait_for_interface.
  destruct (wait_loop_cases (path_exists env) (Z.to_nat timeout) 0%nat self)
    as [(j & _ & _ & _ & Hw)|(Hnone & _)].
  - rewrite Hw, Hdev.
    destruct (read_loop_zero_read recs rest (on_connect_callback self))
      as (Hres & _ & Hcount); try assumption.
    cbn [after result final trace]. split; [exact Hres|].
    intros Hstop. unfold handled in *.
    rewrite !count_app, count_failed_polls. cbn. exact (Hcount Hstop).
  - specialize (Hnone k Hk). cbn in Hnone. congruence.
Qed.

Lemma zero_read_ends_listen_witness :
  let r := listen default_timeout end_of_stream_env sample_controller in
  result r = Returned
  /\ handled (trace r) = 3%nat.
Proof.
  assert (Hgate : exists k, (k < Z.to_nat default_timeout)%nat
                            /\ path_exists end_of_stream_env k = true).
  { exists 0%nat. split; [cbn; lia|reflexivity]. }
  assert (Hlayout : layout_ok sample_controller).
  { split; [reflexivity|cbn; lia]. }
  assert (Hfull : Forall (fun bs => List.length bs
                                    = event_size sample_controller)
                    [circle_pressed_record; circle_released_record;
                     x_pressed_record]).
  { repeat constructor. }
  destruct (zero_read_ends_listen default_timeout end_of_stream_env
              sample_controller
              [circle_pressed_record; circle_released_record;
               x_pressed_record]
              [Bytes []] Hgate Hlayout Hfull eq_refl eq_refl)
    as (Hres & Hcount).
  exact (conj Hres (Hcount eq_refl)).
Defined.

(** A read of the wrong width that is not empty reaches [struct.unpack]:
    [struct.error] leaves the loop, and nothing catches it. *)
Lemma torn_read_raises (self : Controller) (bs : list byte)
    (dev : list device_event) :
  stop self = false ->
  is_empty bs = false ->
  List.length bs <> Struct.calcsize (event_format self) ->
  let r := read_loop (Bytes bs :: dev) self in
  result r = Raised StructError /\ final r = self.
Proof.
  intros Hstop Hnonempty Hwidth. cbn. rewrite Hstop, Hnonempty. cbn.
  unfold _unpack_event, Struct.unpack.
  destruct (Nat.eqb_spec (List.length bs)
              (Struct.calcsize (event_format self))) as [Heq|_].
  - contradiction.
  - split; reflexivity.
Qed.

(** C1 as stated fails on the code.  After three full records and the end
    of the stream, [listen] returns with the connected flag still true;
    after three full records and a read torn after three bytes,
    [struct.error] leaves [listen]. *)
Lemma short_read_keeps_connected_or_raises :
  is_connected (final (listen default_timeout end_of_stream_env
                         sample_controller)) <> false
  /\ result (listen default_timeout torn_read_env sample_controller)
     <> Returned.
Proof. split; vm_compute; discriminate. Qed.

(** * Further properties of the code *)

(** ** The snapshot dictionary *)

(** X1. The dictionary [to_dict] builds has one entry per attribute of the
    snapshot, in the order of [__init__], with no key twice; looking a
    field up by its name gives the value the snapshot holds, and any other
    key is missing. *)
Theorem to_dict_lists_every_field (s : ControllerState) :
  map fst (to_dict s) = map field_name all_fields
  /\ NoDup (map fst (to_dict s))
  /\ (forall f, dict_get (field_name f) (to_dict s) = Some (field_value f s))
  /\ (forall key, ~ In key (map field_name all_fields) ->
        dict_get key (to_dict s) = None).
Proof.
  repeat apply conj.
  - reflexivity.
  - cbn. repeat (constructor; [cbn; intuition discriminate|]). constructor.
  - intros f. destruct f; reflexivity.
  - intros key Hkey. cbn in Hkey. cbn [to_dict dict_get].
    repeat match goal with
           | |- context [String.eqb key ?k] =>
               destruct (String.eqb_spec key k) as [->|_];
               [exfalso; apply Hkey; tauto|]
           end.
    reflexivity.
Qed.

(** X2. The dictionary holds the whole snapshot: two snapshots with the
    same dictionary are the same snapshot. *)
Theorem to_dict_injective (s s' : ControllerState) :
  to_dict s = to_dict s' -> s = s'.
Proof.
  destruct s, s'. unfold to_dict. cbn. intros H.
  injection H as -> -> -> -> -> -> -> -> -> -> -> -> -> -> -> -> -> ->
                 -> -> ->.
  reflexivity.
Qed.

Lemma to_dict_injective_witness :
  to_dict (state (_handle_event circle_held 1 1 0 []))
  = to_dict ControllerState_init
  /\ state (_handle_event circle_held 1 1 0 []) = ControllerState_init.
Proof.
  split; [reflexivity|].
  exact (to_dict_injective (state (_handle_event circle_held 1 1 0 []))
           ControllerState_init eq_refl).
Defined.

(** ** Unpacking a record *)

(** X3. [_unpack_event] raises [struct.error] exactly when the buffer is
    not as long as the layout, raises [IndexError] exactly when the buffer
    fits a layout of fewer than three fields, and otherwise returns.  It
    returns [(overflow, value, button_type, button_id)] exactly when
    [struct.unpack] gives the fields [button_id], [button_type], [value]
    followed by [overflow]: the overflow is every field after the third,
    in order, and nothing else. *)
Theorem unpack_event_outcomes (self : Controller) (bs : list byte) :
  let width := Struct.calcsize (event_format self) in
  let nfields := Struct.field_count (event_format self) in
  (_unpack_event self bs = inl StructError <-> List.length bs <> width)
  /\ (_unpack_event self bs = inl IndexError
      <-> List.length bs = width /\ (nfields < 3)%nat)
  /\ ((exists fields, _unpack_event self bs = inr fields)
      <-> List.length bs = width /\ (3 <= nfields)%nat)
  /\ (forall overflow value button_type button_id,
        _unpack_event self bs
        = inr (overflow, value, button_type, button_id) ->
        List.length overflow = (nfields - 3)%nat)
  /\ (forall overflow value button_type button_id,
        _unpack_event self bs
        = inr (overflow, value, button_type, button_id)
        <-> Struct.unpack (event_format self) bs
            = Some (button_id :: button_type :: value :: overflow)).
Proof.
  intros width nfields. subst width nfields.
  unfold _unpack_event, Struct.unpack.
  pose proof (unpack_from_length (event_format self) bs 0) as Hfields.
  destruct (Nat.eqb_spec (List.length bs)
              (Struct.calcsize (event_format self))) as [Hlen|Hlen].
  - destruct (Struct.unpack_from 0 (event_format self) bs)
      as [|e0 [|e1 [|e2 rest]]]; cbn in Hfields; rewrite <- Hfields.
    1-3: split; [|split; [|split; [|split]]];
      [ split; [discriminate|contradiction]
      | split; [intros _; split; [assumption|lia]|reflexivity]
      | split; [intros [fields Hf]; discriminate|intros [_ Hn]; lia]
      | discriminate
      | intros overflow value button_type button_id; split; congruence ].
    split; [|split; [|split; [|split]]].
    + split; [discriminate|contradiction].
    + split; [discriminate|intros [_ Hn]; lia].
    + split; [intros _; split; [assumption|lia]|].
      intros _. eexists. reflexivity.
    + intros overflow value button_type button_id Heq.
      injection Heq as <- _ _ _. cbn. lia.
    + intros overflow value button_type button_id. split; congruence.
  - split; [|split; [|split; [|split]]].
    + split; [intros _; assumption|reflexivity].
    + split; [discriminate|intros [Hl _]; contradiction].
    + split; [intros [fields Hf]; discriminate|intros [Hl _]; contradiction].
    + discriminate.
    + intros overflow value button_type button_id. split; discriminate.
Qed.

(** The eight bytes of a record in the default layout. *)
Lemma unpack_default_record (self : Controller)
    (b0 b1 b2 b3 b4 b5 b6 b7 : byte) :
  event_format self = default_event_format ->
  _unpack_event self [b0; b1; b2; b3; b4; b5; b6; b7]
  = inr ([Struct.signed 16
            (Z.of_N (Byte.to_N b4) + 256 * Z.of_N (Byte.to_N b5));
          Struct.signed 8 (Z.of_N (Byte.to_N b6));
          Struct.signed 8 (Z.of_N (Byte.to_N b7))],
         Z.of_N (Byte.to_N b2), Z.of_N (Byte.to_N b1),
         Z.of_N (Byte.to_N b0)).
Proof. intros Hfmt. unfold _unpack_event. rewrite Hfmt. reflexivity. Qed.

Lemma u8_range (bs : list byte) (i : nat) : 0 <= Struct.u8 bs i <= 255.
Proof.
  unfold Struct.u8. pose proof (Byte.to_N_bounded (nth i bs x00)). lia.
Qed.

Lemma eight_bytes (bs : list byte) :
  List.length bs = 8%nat ->
  exists b0 b1 b2 b3 b4 b5 b6 b7, bs = [b0; b1; b2; b3; b4; b5; b6; b7].
Proof.
  intros H.
  destruct bs as [|b0 [|b1 [|b2 [|b3 [|b4 [|b5 [|b6 [|b7 [|b8 bs]]]]]]]]];
    try discriminate.
  now exists b0, b1, b2, b3, b4, b5, b6, b7.
Qed.

(** X4. With the default layout a record of eight bytes always unpacks:
    [button_id], [button_type] and [value] are its first three bytes read
    unsigned, so none of them is ever negative; the short in bytes 4-5 and
    the two signed bytes after it go to the overflow; byte 3 is padding. *)
Theorem default_layout_fields (self : Controller) (bs : list byte) :
  event_format self = default_event_format ->
  List.length bs = 8%nat ->
  exists overflow value button_type button_id,
    _unpack_event self bs = inr (overflow, value, button_type, button_id)
    /\ button_id = Struct.u8 bs 0
    /\ button_type = Struct.u8 bs 1
    /\ value = Struct.u8 bs 2
    /\ overflow = [Struct.signed 16 (Struct.u8 bs 4 + 256 * Struct.u8 bs 5);
                   Struct.signed 8 (Struct.u8 bs 6);
                   Struct.signed 8 (Struct.u8 bs 7)]
    /\ 0 <= button_id <= 255
    /\ 0 <= button_type <= 255
    /\ 0 <= value <= 255.
Proof.
  intros Hfmt Hlen.
  destruct (eight_bytes bs Hlen)
    as (b0 & b1 & b2 & b3 & b4 & b5 & b6 & b7 & ->).
  do 4 eexists. split; [apply unpack_default_record; exact Hfmt|].
  repeat split;
    try apply (u8_range [b0; b1; b2; b3; b4; b5; b6; b7] 0);
    try apply (u8_range [b0; b1; b2; b3; b4; b5; b6; b7] 1);
    apply (u8_range [b0; b1; b2; b3; b4; b5; b6; b7] 2).
Qed.

Lemma default_layout_fields_witness :
  exists overflow value button_type button_id,
    _unpack_event sample_controller [x07; x02; xff; xaa; xfe; xff; x80; x7f]
    = inr (overflow, value, button_type, button_id)
    /\ button_id = 7 /\ button_type = 2 /\ value = 255
    /\ overflow = [-2; -128; 127].
Proof.
  destruct (default_layout_fields sample_controller
              [x07; x02; xff; xaa; xfe; xff; x80; x7f] eq_refl eq_refl)
    as (overflow & value & button_type & button_id & Hunpack & Hid & Hty
        & Hv & Hov & _).
  exists overflow, value, button_type, button_id.
  split; [exact Hunpack|]. subst. repeat split.
Defined.

Lemma u8_injective (a b : byte) :
  Z.of_N (Byte.to_N a) = Z.of_N (Byte.to_N b) -> a = b.
Proof.
  intros H. apply N2Z.inj in H.
  pose proof (Byte.of_to_N a) as Ha. rewrite H, Byte.of_to_N in Ha.
  congruence.
Qed.

Lemma signed_injective (bits x y : Z) :
  0 < bits -> 0 <= x < 2 ^ bits -> 0 <= y < 2 ^ bits ->
  Struct.signed bits x = Struct.signed bits y -> x = y.
Proof.
  intros Hbits Hx Hy. unfold Struct.signed.
  assert (0 < 2 ^ (bits - 1)) by (apply Z.pow_pos_nonneg; lia).
  assert (2 ^ bits = 2 * 2 ^ (bits - 1)).
  { replace bits with (Z.succ (bits - 1)) at 1 by lia.
    apply Z.pow_succ_r. lia. }
  destruct (Z.ltb_spec x (2 ^ (bits - 1))), (Z.ltb_spec y (2 ^ (bits - 1)));
    lia.
Qed.

(** X5. With the default layout the unpacked fields determine the record
    up to its padding byte: two records of eight bytes unpack to the same
    fields exactly when they agree on every byte but byte 3. *)
Theorem default_layout_loses_only_padding (self : Controller)
    (bs bs' : list byte) :
  event_format self = default_event_format ->
  List.length bs = 8%nat ->
  List.length bs' = 8%nat ->
  (_unpack_event self bs = _unpack_event self bs'
   <-> forall i, i <> 3%nat -> nth i bs x00 = nth i bs' x00).
Proof.
  intros Hfmt Hlen Hlen'.
  destruct (eight_bytes bs Hlen)
    as (b0 & b1 & b2 & b3 & b4 & b5 & b6 & b7 & ->).
  destruct (eight_bytes bs' Hlen')
    as (c0 & c1 & c2 & c3 & c4 & c5 & c6 & c7 & ->).
  rewrite !unpack_default_record by exact Hfmt. split.
  - pose proof (Byte.to_N_bounded b4) as B4.
    pose proof (Byte.to_N_bounded b5) as B5.
    pose proof (Byte.to_N_bounded b6) as B6.
    pose proof (Byte.to_N_bounded b7) as B7.
    pose proof (Byte.to_N_bounded c4) as C4.
    pose proof (Byte.to_N_bounded c5) as C5.
    pose proof (Byte.to_N_bounded c6) as C6.
    pose proof (Byte.to_N_bounded c7) as C7.
    remember (Z.of_N (Byte.to_N b4)) as x4 eqn:X4.
    remember (Z.of_N (Byte.to_N b5)) as x5 eqn:X5.
    remember (Z.of_N (Byte.to_N b6)) as x6 eqn:X6.
    remember (Z.of_N (Byte.to_N b7)) as x7 eqn:X7.
    remember (Z.of_N (Byte.to_N c4)) as y4 eqn:Y4.
    remember (Z.of_N (Byte.to_N c5)) as y5 eqn:Y5.
    remember (Z.of_N (Byte.to_N c6)) as y6 eqn:Y6.
    remember (Z.of_N (Byte.to_N c7)) as y7 eqn:Y7.
    intros Heq.
    assert (Hshort : Struct.signed 16 (x4 + 256 * x5)
                     = Struct.signed 16 (y4 + 256 * y5)) by congruence.
    assert (H6 : Struct.signed 8 x6 = Struct.signed 8 y6) by congruence.
    assert (H7 : Struct.signed 8 x7 = Struct.signed 8 y7) by congruence.
    assert (H2 : Z.of_N (Byte.to_N b2) = Z.of_N (Byte.to_N c2))
      by congruence.
    assert (H1 : Z.of_N (Byte.to_N b1) = Z.of_N (Byte.to_N c1))
      by congruence.
    assert (H0 : Z.of_N (Byte.to_N b0) = Z.of_N (Byte.to_N c0))
      by congruence.
    clear Heq.
    apply u8_injective in H0, H1, H2.
    apply signed_injective in Hshort, H6, H7;
      try lia.
    assert (x4 = y4 /\ x5 = y5) as [H4 H5] by lia.
    subst x4 x5 x6 x7 y4 y5 y6 y7.
    apply u8_injective in H4, H5, H6, H7. subst.
    intros i Hi.
    do 8 (destruct i as [|i]; [try reflexivity; congruence|]).
    reflexivity.
  - intros Hagree.
    pose proof (Hagree 0%nat) as H0. pose proof (Hagree 1%nat) as H1.
    pose proof (Hagree 2%nat) as H2. pose proof (Hagree 4%nat) as H4.
    pose proof (Hagree 5%nat) as H5. pose proof (Hagree 6%nat) as H6.
    pose proof (Hagree 7%nat) as H7. cbn [nth] in *.
    rewrite H0, H1, H2, H4, H5, H6, H7 by discriminate. reflexivity.
Qed.

Lemma default_layout_loses_only_padding_witness :
  _unpack_event sample_controller [x07; x02; xff; xaa; xfe; xff; x80; x7f]
  = _unpack_event sample_controller [x07; x02; xff; x00; xfe; xff; x80; x7f].
Proof.
  apply (default_layout_loses_only_padding sample_controller
           [x07; x02; xff; xaa; xfe; xff; x80; x7f]
           [x07; x02; xff; x00; xfe; xff; x80; x7f]
           eq_refl eq_refl eq_refl).
  intros i Hi.
  do 8 (destruct i as [|i]; [try reflexivity; congruence|]).
  reflexivity.
Defined.

(** ** More on the dispatch chain *)

(** X6. A stick event always appends the label of its stick, also when none
    of the six motion queries holds.  A rest event zeroes its axis; a
    motion stores [event.value] as it is, in the x axis for left and right
    and in the y axis for up and down; nothing else in the snapshot
    changes. *)
Theorem stick_event_effects (self : Controller)
    (button_id button_type value : Z) (overflow : list Z) (m : motion) :
  let event := event_of self button_id button_type value overflow in
  let self' := _handle_event self button_id button_type value overflow in
  let s := state self in
  let v := Event.value event in
  (classify event = RightStick m ->
     event_history self' = event_history self ++ ["right_joystick"]
     /\ state self'
        = match m with
          | YAtRest => set_R3_y_axis 0 s
          | XAtRest => set_R3_x_axis 0 s
          | MoveRight | MoveLeft => set_R3_x_axis v s
          | MoveUp | MoveDown => set_R3_y_axis v s
          | NoMotion => s
          end)
  /\ (classify event = LeftStick m ->
        event_history self' = event_history self ++ ["left_joystick"]
        /\ state self'
           = match m with
             | YAtRest => set_L3_y_axis 0 s
             | XAtRest => set_L3_x_axis 0 s
             | MoveRight | MoveLeft => set_L3_x_axis v s
             | MoveUp | MoveDown => set_L3_y_axis v s
             | NoMotion => s
             end).
Proof.
  intros event self' s v. subst self'.
  rewrite handle_event_state, handle_event_history. fold event s v.
  split; intros Hsem; rewrite Hsem; split; try reflexivity;
    destruct m; reflexivity.
Qed.

Lemma stick_event_effects_witness :
  classify (event_of sample_controller 3 2 (-700) []) = RightStick MoveLeft
  /\ R3_x_axis (state (_handle_event sample_controller 3 2 (-700) []))
     = -700
  /\ event_history (_handle_event sample_controller 3 2 (-700) [])
     = ["right_joystick"].
Proof.
  split; [reflexivity|].
  destruct (proj1 (stick_event_effects sample_controller 3 2 (-700) []
                     MoveLeft) eq_refl) as [Hhist Hstate].
  split; [rewrite Hstate; reflexivity|exact Hhist].
Defined.

(** X7. Pressing a button that is up and then releasing it brings the
    snapshot back to what it was; in between the flag is true, and the
    history has grown by the one label of the press. *)
Theorem press_then_release_restores (self : Controller)
    (id1 type1 value1 : Z) (overflow1 : list Z)
    (id2 type2 value2 : Z) (overflow2 : list Z) (b : button) :
  let pressed := _handle_event self id1 type1 value1 overflow1 in
  let released := _handle_event pressed id2 type2 value2 overflow2 in
  classify (event_of self id1 type1 value1 overflow1) = Pressed b ->
  classify (event_of pressed id2 type2 value2 overflow2) = Released b ->
  button_flag b (state self) = false ->
  button_flag b (state pressed) = true
  /\ state released = state self
  /\ event_history released = event_history self ++ [button_label b].
Proof.
  intros pressed released Hpress Hrelease Hup. subst released.
  rewrite handle_event_state, handle_event_history, Hrelease.
  subst pressed. rewrite handle_event_state, handle_event_history, Hpress.
  cbn [update label_of]. repeat split.
  - destruct b; reflexivity.
  - destruct b, (state self); cbn in *; subst; reflexivity.
  - now rewrite app_nil_r.
Qed.

Lemma press_then_release_restores_witness :
  let pressed := _handle_event sample_controller 1 1 1 [] in
  let released := _handle_event pressed 1 1 0 [] in
  circle_button (state pressed) = true
  /\ state released = state sample_controller
  /\ event_history released = ["circle"].
Proof.
  exact (press_then_release_restores sample_controller 1 1 1 [] 1 1 0 []
           BCircle eq_refl eq_refl eq_refl).
Defined.

(** X8. Pressing a trigger that is at rest and then releasing it brings
    the snapshot back to what it was; in between the field holds the value
    of the press event, and the history has grown by the one label of the
    press. *)
Theorem trigger_press_then_release_restores (self : Controller)
    (id1 type1 value1 : Z) (overflow1 : list Z)
    (id2 type2 value2 : Z) (overflow2 : list Z) (t : trigger) :
  let pressed := _handle_event self id1 type1 value1 overflow1 in
  let released := _handle_event pressed id2 type2 value2 overflow2 in
  classify (event_of self id1 type1 value1 overflow1) = TriggerPressed t ->
  classify (event_of pressed id2 type2 value2 overflow2)
  = TriggerReleased t ->
  trigger_field t (state self) = -32767 ->
  trigger_field t (state pressed)
  = Event.value (event_of self id1 type1 value1 overflow1)
  /\ state released = state self
  /\ event_history released = event_history self ++ [trigger_label t].
Proof.
  intros pressed released Hpress Hrelease Hrest. subst released.
  rewrite handle_event_state, handle_event_history, Hrelease.
  subst pressed. rewrite handle_event_state, handle_event_history, Hpress.
  cbn [update label_of]. repeat split.
  - destruct t; reflexivity.
  - destruct t, (state self); cbn in *; subst; reflexivity.
  - now rewrite app_nil_r.
Qed.

Lemma trigger_press_then_release_restores_witness :
  let pressed := _handle_event sample_controller 2 2 12000 [] in
  let released := _handle_event pressed 2 2 (-32767) [] in
  L2_button (state pressed) = 12000
  /\ state released = state sample_controller
  /\ event_history released = ["L2"].
Proof.
  exact (trigger_press_then_release_restores sample_controller
           2 2 12000 [] 2 2 (-32767) [] TL2 eq_refl eq_refl eq_refl).
Defined.

(** X9. With both arrows of an axis up, pressing one of them and then
    receiving the combined release of the axis brings the snapshot back to
    what it was; the history has grown by the label of the arrow. *)
Theorem arrow_press_then_release_restores (self : Controller)
    (id1 type1 value1 : Z) (overflow1 : list Z)
    (id2 type2 value2 : Z) (overflow2 : list Z) (a : arrow) :
  let pressed := _handle_event self id1 type1 value1 overflow1 in
  let released := _handle_event pressed id2 type2 value2 overflow2 in
  classify (event_of self id1 type1 value1 overflow1) = ArrowPressed a ->
  classify (event_of pressed id2 type2 value2 overflow2)
  = combined_release a ->
  arrow_flag a (state self) = false ->
  arrow_flag (opposite a) (state self) = false ->
  arrow_flag a (state pressed) = true
  /\ state released = state self
  /\ event_history released = event_history self ++ [arrow_label a].
Proof.
  intros pressed released Hpress Hrelease Hup Hopp. subst released.
  rewrite handle_event_state, handle_event_history, Hrelease.
  subst pressed. rewrite handle_event_state, handle_event_history, Hpress.
  cbn [update label_of]. repeat split.
  - destruct a; reflexivity.
  - destruct a, (state self); cbn in *; subst; reflexivity.
  - destruct a; cbn; now rewrite app_nil_r.
Qed.

Lemma arrow_press_then_release_restores_witness :
  let pressed := _handle_event sample_controller 7 2 (-32767) [] in
  let released := _handle_event pressed 7 2 0 [] in
  up_arrow (state pressed) = true
  /\ state released = state sample_controller
  /\ event_history released = ["up"].
Proof.
  exact (arrow_press_then_release_restores sample_controller
           7 2 (-32767) [] 7 2 0 [] ArrowUp eq_refl eq_refl eq_refl
           eq_refl).
Defined.

(** X10. The chain is first-match-wins.  When the right-stick query holds,
    the event is handled as a right-stick event whatever the other queries
    answer: the right-stick label is appended and only the two axes of the
    right stick can change.  When it does not hold and the left-stick
    query does, the same goes for the left stick.  When neither holds and
    the circle-pressed query does, circle is set and labelled, even if the
    circle-released query or any later query holds too. *)
Theorem first_query_wins (self : Controller)
    (button_id button_type value : Z) (overflow : list Z) :
  let event := event_of self button_id button_type value overflow in
  let self' := _handle_event self button_id button_type value overflow in
  let s := state self in
  let s' := state self' in
  (Event.R3_event event = true ->
     event_history self' = event_history self ++ ["right_joystick"]
     /\ forall f, f <> F_R3_x_axis -> f <> F_R3_y_axis ->
                  field_value f s' = field_value f s)
  /\ (Event.R3_event event = false -> Event.L3_event event = true ->
        event_history self' = event_history self ++ ["left_joystick"]
        /\ forall f, f <> F_L3_x_axis -> f <> F_L3_y_axis ->
                     field_value f s' = field_value f s)
  /\ (Event.R3_event event = false -> Event.L3_event event = false ->
      Event.circle_pressed event = true ->
        event_history self' = event_history self ++ ["circle"]
        /\ s' = set_circle_button true s).
Proof.
  intros event self' s s'. subst s' self'.
  rewrite handle_event_state, handle_event_history. fold event s.
  unfold classify. clearbody event s. repeat apply conj.
  - intros ->. split; [reflexivity|].
    intros f Hx Hy.
    destruct (classify_right_stick event), f, s; cbn; congruence.
  - intros -> ->. split; [reflexivity|].
    intros f Hx Hy.
    destruct (classify_left_stick event), f, s; cbn; congruence.
  - intros -> -> ->. split; reflexivity.
Qed.

Lemma first_query_wins_witness :
  Event.R3_event (event_of eager_controller 1 1 1 []) = true
  /\ Event.circle_pressed (event_of eager_controller 1 1 1 []) = true
  /\ event_history (_handle_event eager_controller 1 1 1 [])
     = ["right_joystick"]
  /\ field_value F_circle_button
       (state (_handle_event eager_controller 1 1 1 []))
     = PyBool false.
Proof.
  split; [reflexivity|]. split; [reflexivity|].
  destruct (proj1 (first_query_wins eager_controller 1 1 1 []) eq_refl)
    as [Hhist Hframe].
  split; [exact Hhist|].
  rewrite (Hframe F_circle_button) by discriminate. reflexivity.
Defined.

(** ** Runs of [listen], piece by piece *)

Lemma after_after (pre pre' : list action) (r : Run) :
  after pre (after pre' r) = after (pre ++ pre') r.
Proof. unfold after. cbn. now rewrite app_assoc. Qed.

(** When some permitted poll finds the path, [listen] is the read loop on
    the connected controller, after the polls and the open. *)
Lemma listen_found (timeout : Z) (env : Environment) (self : Controller) :
  (exists k, (k < Z.to_nat timeout)%nat /\ path_exists env k = true) ->
  exists j,
    (j < Z.to_nat timeout)%nat
    /\ listen timeout env self
       = after ((failed_polls j ++ [PathExists true]) ++ [Open])
           (read_loop (device env) (on_connect_callback self)).
Proof.
  intros (k & Hk & Hfound). unfold listen, wait_for_interface.
  destruct (wait_loop_cases (path_exists env) (Z.to_nat timeout) 0%nat self)
    as [(j & Hj & _ & _ & Hw)|(Hnone & _)].
  - exists j. rewrite Hw. split; [exact Hj|reflexivity].
  - specialize (Hnone k Hk). cbn in Hnone. congruence.
Qed.

(** The polls and the open contain no read, no record and no signal. *)
Lemma gate_trace_counts (j : nat) :
  let gate := (failed_polls j ++ [PathExists true]) ++ [Open] in
  handled gate = 0%nat /\ signals gate = 0%nat
  /\ count is_read gate = 0%nat.
Proof.
  cbv zeta. unfold handled, signals.
  rewrite !count_app, !count_failed_polls. repeat split.
Qed.

Lemma handled_events_app (a b : list action) :
  handled_events (a ++ b) = handled_events a ++ handled_events b.
Proof.
  induction a as [|[] a IH]; cbn; try exact IH; [reflexivity|].
  now rewrite IH.
Qed.

Lemma handled_events_gate (j : nat) :
  handled_events ((failed_polls j ++ [PathExists true]) ++ [Open]) = [].
Proof.
  rewrite !handled_events_app. cbn. rewrite !app_nil_r.
  induction j as [|j IH]; [reflexivity|exact IH].
Qed.

(** The trace of a batch of records. *)
Lemma records_trace_counts (recs : list (list byte))
    (evs : list (list Z * Z * Z * Z)) :
  List.length recs = List.length evs ->
  handled (records_trace recs evs) = List.length recs
  /\ signals (records_trace recs evs) = List.length recs
  /\ count is_read (records_trace recs evs) = List.length recs
  /\ handled_events (records_trace recs evs) = evs.
Proof.
  revert evs. induction recs as [|bs recs IH];
    intros [|[[[overflow value] button_type] button_id] evs] Hlen;
    try discriminate; [repeat split|].
  injection Hlen as Hlen. destruct (IH evs Hlen) as (Hh & Hs & Hr & He).
  unfold handled, signals, count in *. cbn.
  rewrite Hh, Hs, Hr, He. repeat split.
Qed.

(** Counting in a run that passed the gate and handled a batch. *)
Lemma run_counts (j : nat) (recs : list (list byte))
    (evs : list (list Z * Z * Z * Z)) (tr : list action) :
  List.length recs = List.length evs ->
  let full := (((failed_polls j ++ [PathExists true]) ++ [Open])
               ++ records_trace recs evs) ++ tr in
  handled full = (List.length recs + handled tr)%nat
  /\ signals full = (List.length recs + signals tr)%nat
  /\ count is_read full = (List.length recs + count is_read tr)%nat.
Proof.
  intros Hlen. cbv zeta.
  destruct (records_trace_counts recs evs Hlen) as (Hh & Hs & Hr & _).
  unfold handled, signals in *.
  rewrite !count_app, !count_failed_polls, Hh, Hs, Hr. cbn.
  repeat split.
Qed.

(** What [_handle_event] leaves alone in the controller. *)
Lemma handle_event_config (self : Controller)
    (button_id button_type value : Z) (overflow : list Z) :
  let self' := _handle_event self button_id button_type value overflow in
  interface self' = interface self
  /\ debug self' = debug self
  /\ event_definition self' = event_definition self
  /\ event_format self' = event_format self
  /\ event_size self' = event_size self.
Proof.
  cbv zeta. rewrite handle_event_reduce. unfold reduce.
  destruct (label_of _); cbn; repeat split.
Qed.

Lemma unpack_event_format (a b : Controller) (bs : list byte) :
  event_format a = event_format b ->
  _unpack_event a bs = _unpack_event b bs.
Proof. unfold _unpack_event. now intros ->. Qed.

(** A batch of full records, not stopped: the loop handles them one after
    the other and goes on with what follows. *)
Lemma read_loop_full_records (recs : list (list byte))
    (rest : list device_event) :
  forall self : Controller,
  layout_ok self ->
  stop self = false ->
  Forall (fun bs => List.length bs = event_size self) recs ->
  exists evs,
    Forall2 (fun bs ev => _unpack_event self bs = inr ev) recs evs
    /\ let self' := fold_left process_record evs self in
       read_loop (map Bytes recs ++ rest) self
       = after (records_trace recs evs) (read_loop rest self')
       /\ layout_ok self'
       /\ stop self' = false
       /\ is_connected self' = is_connected self
       /\ event_size self' = event_size self.
Proof.
  induction recs as [|bs recs IH]; intros self Hlayout Hstop Hfull.
  - exists []. split; [constructor|]. cbn.
    repeat split; try assumption; try apply Hlayout.
    destruct (read_loop rest self); reflexivity.
  - inversion Hfull as [|? ? Hbs Hrecs]; subst.
    destruct (full_record_decodes self bs Hlayout Hbs)
      as [Hnonempty [[[[overflow value] button_type] button_id] Hdecode]].
    destruct (loop_body_frame self button_id button_type value overflow)
      as (Hlayout' & Hsize' & Hstop' & Hconn').
    cbv zeta in Hlayout', Hsize', Hstop', Hconn'.
    destruct (handle_event_config self button_id button_type value overflow)
      as (_ & _ & _ & Hfmt' & _).
    set (self1 := state_queue_put
                    (_handle_event self button_id button_type value
                       overflow)) in *.
    assert (Hlayout1 : layout_ok self1) by exact (Hlayout' Hlayout).
    assert (Hstop1 : stop self1 = false) by now rewrite Hstop'.
    assert (Hfull1 : Forall (fun bs => List.length bs = event_size self1)
                       recs) by now rewrite Hsize'.
    destruct (IH self1 Hlayout1 Hstop1 Hfull1)
      as (evs & Hdec & Hrun & Hl & Hs & Hc & Hz).
    exists ((overflow, value, button_type, button_id) :: evs). split.
    + constructor; [exact Hdecode|].
      eapply Forall2_impl; [|exact Hdec].
      intros rec ev Hev. rewrite <- Hev. apply unpack_event_format.
      symmetry. exact Hfmt'.
    + cbn [fold_left process_record]. fold self1.
      split; [|split; [exact Hl|split; [exact Hs|split; congruence]]].
      cbn [map app read_loop]. rewrite Hstop, Hnonempty, Hdecode.
      cbn [negb andb]. fold self1. rewrite Hrun, after_after.
      reflexivity.
Qed.

(** Once the stop flag is set the loop is over after one more read. *)
Lemma read_loop_stopped (dev : list device_event) :
  forall self : Controller,
  stop self = true ->
  let r := read_loop dev self in
  result r = Returned
  /\ handled (trace r) = 0%nat
  /\ (count is_read (trace r) <= 1)%nat
  /\ stop (final r) = true
  /\ state (final r) = state self
  /\ event_history (final r) = event_history self
  /\ _state_queue (final r) = _state_queue self.
Proof.
  induction dev as [|[event| |] dev IH]; intros self Hstop; cbn.
  - repeat split; try assumption. unfold count. cbn. lia.
  - rewrite Hstop. cbn. repeat split; try assumption. unfold count. cbn. lia.
  - exact (IH (stop_listening self) eq_refl).
  - repeat split. unfold count. cbn. lia.
Qed.

(** A read of no bytes ends the loop at once. *)
Lemma read_loop_at_zero_read (rest : list device_event) (self : Controller) :
  zero_read_next rest = true ->
  exists bs,
    read_loop rest self
    = {| result := Returned; final := self; trace := [Read bs] |}.
Proof.
  destruct rest as [|[bs| |] rest]; cbn; intros Hzero; try discriminate.
  - now exists [].
  - exists bs. now rewrite Hzero, andb_false_r.
Qed.

Lemma read_loop_config (dev : list device_event) :
  forall self : Controller,
  let c := final (read_loop dev self) in
  interface c = interface self
  /\ debug c = debug self
  /\ event_definition c = event_definition self
  /\ event_format c = event_format self
  /\ event_size c = event_size self.
Proof.
  induction dev as [|[event| |] dev IH]; intros self; cbn.
  - repeat split.
  - destruct (negb (stop self) && negb (is_empty event)); [|repeat split].
    destruct (_unpack_event self event)
      as [e|[[[overflow value] button_type] button_id]]; [repeat split|].
    cbn [after final].
    destruct (IH (state_queue_put
                    (_handle_event self button_id button_type value
                       overflow))) as (Hi & Hd & He & Hf & Hs).
    destruct (handle_event_config self button_id button_type value overflow)
      as (Hi' & Hd' & He' & Hf' & Hs').
    cbn in Hi, Hd, He, Hf, Hs.
    rewrite Hi, Hd, He, Hf, Hs. repeat split; assumption.
  - exact (IH (stop_listening self)).
  - repeat split.
Qed.

Lemma read_loop_connected (dev : list device_event) :
  forall self : Controller,
  forallb (fun d => negb (is_interrupt d)) dev = true ->
  is_connected (final (read_loop dev self)) = is_connected self.
Proof.
  induction dev as [|[event| |] dev IH]; intros self Hclean; cbn in *;
    try discriminate.
  - reflexivity.
  - destruct (negb (stop self) && negb (is_empty event)); [|reflexivity].
    destruct (_unpack_event self event)
      as [e|[[[overflow value] button_type] button_id]]; [reflexivity|].
    cbn [after final]. rewrite (IH _ Hclean). cbn.
    apply (handle_event_frame self button_id button_type value overflow).
  - exact (IH (stop_listening self) Hclean).
Qed.

(** ** One signal per record *)

(** C9. In every run of [listen], each record handed to [_handle_event] is
    followed at once by exactly one signal on the update queue, and no
    signal is put at any other moment: as many signals as records handled,
    whatever the events did to the snapshot.  And the records delivered
    are the records handled: when the device delivers full records
    [recs] to a running pipeline, the trace of [listen] is the polls and
    the open, then for each record of [recs] in turn its read, its
    [_handle_event] on the unpacked fields and its one signal, then what
    follows.  So there are at least as many signals as records delivered;
    and when a read of no bytes comes next there are exactly as many, the
    queue has grown by one item per record, and the controller is the
    connected one taken through handle-then-signal once per record. *)
Theorem one_signal_per_record (timeout : Z) (env : Environment)
    (self : Controller) :
  let r := listen timeout env self in
  signal_follows_each_record (trace r) = true
  /\ signals (trace r) = handled (trace r)
  /\ _state_queue (final r)
     = _state_queue self ++ repeat true (handled (trace r))
  /\ (forall (recs : list (list byte)) (rest : list device_event),
        (exists k, (k < Z.to_nat timeout)%nat /\ path_exists env k = true) ->
        layout_ok self ->
        stop self = false ->
        Forall (fun bs => List.length bs = event_size self) recs ->
        device env = map Bytes recs ++ rest ->
        exists evs j tail,
          Forall2 (fun bs ev => _unpack_event self bs = inr ev) recs evs
          /\ trace r
             = (((failed_polls j ++ [PathExists true]) ++ [Open])
                ++ records_trace recs evs) ++ tail
          /\ (List.length recs <= signals (trace r))%nat
          /\ (zero_read_next rest = true ->
                signals (trace r) = List.length recs
                /\ handled_events (trace r) = evs
                /\ _state_queue (final r)
                   = _state_queue self ++ repeat true (List.length recs)
                /\ final r
                   = fold_left process_record evs
                       (on_connect_callback self))).
Proof.
  intros r.
  destruct (listen_signals timeout env self) as (Hfollow & Hcount & Hqueue).
  fold r in Hfollow, Hcount, Hqueue.
  split; [exact Hfollow|]. split; [exact Hcount|]. split; [exact Hqueue|].
  intros recs rest Hgate Hlayout Hstop Hfull Hdev.
  destruct (listen_found timeout env self Hgate) as (j & _ & Hrun).
  fold r in Hrun. rewrite Hdev in Hrun.
  destruct (read_loop_full_records recs rest (on_connect_callback self)
              Hlayout Hstop Hfull) as (evs & Hdec & Hloop & _).
  cbv zeta in Hloop. rewrite Hloop, after_after in Hrun.
  set (self' := fold_left process_record evs (on_connect_callback self))
    in *.
  exists evs, j, (trace (read_loop rest self')).
  assert (Htrace : trace r
                   = (((failed_polls j ++ [PathExists true]) ++ [Open])
                      ++ records_trace recs evs)
                     ++ trace (read_loop rest self'))
    by (rewrite Hrun; reflexivity).
  destruct (run_counts j recs evs (trace (read_loop rest self'))
              (Forall2_length Hdec)) as (_ & Hsignals & _).
  cbv zeta in Hsignals.
  split; [exact Hdec|]. split; [exact Htrace|]. split.
  - rewrite Htrace, Hsignals. lia.
  - intros Hzero.
    destruct (read_loop_at_zero_read rest self' Hzero) as (bs & Hend).
    assert (Hexact : signals (trace r) = List.length recs).
    { rewrite Htrace, Hsignals, Hend. cbn. lia. }
    split; [exact Hexact|]. split; [|split].
    + destruct (records_trace_counts recs evs (Forall2_length Hdec))
        as (_ & _ & _ & Hevs).
      rewrite Htrace, Hend. cbn [trace].
      rewrite (handled_events_app (_ ++ records_trace recs evs)).
      rewrite (handled_events_app _ (records_trace recs evs)).
      rewrite handled_events_gate, Hevs. cbn. apply app_nil_r.
    + rewrite Hqueue, <- Hcount, Hexact. reflexivity.
    + rewrite Hrun, Hend. reflexivity.
Qed.

Lemma one_signal_per_record_witness :
  let r := listen default_timeout end_of_stream_env sample_controller in
  signals (trace r) = 3%nat
  /\ handled_events (trace r)
     = [([0; 0; 0], 1, 1, 1); ([0; 0; 0], 0, 1, 1); ([0; 0; 0], 1, 1, 0)]
  /\ _state_queue (final r) = [true; true; true].
Proof.
  intros r.
  assert (Hgate : exists k, (k < Z.to_nat default_timeout)%nat
                            /\ path_exists end_of_stream_env k = true).
  { exists 0%nat. split; [cbn; lia|reflexivity]. }
  assert (Hlayout : layout_ok sample_controller).
  { split; [reflexivity|cbn; lia]. }
  assert (Hfull : Forall (fun bs => List.length bs
                                    = event_size sample_controller)
                    [circle_pressed_record; circle_released_record;
                     x_pressed_record]).
  { repeat constructor. }
  destruct (one_signal_per_record default_timeout end_of_stream_env
              sample_controller) as (_ & _ & _ & Hdelivered).
  destruct (Hdelivered
              [circle_pressed_record; circle_released_record;
               x_pressed_record]
              [Bytes []] Hgate Hlayout eq_refl Hfull eq_refl)
    as (evs & j & tail & _ & _ & _ & Hzero).
  destruct (Hzero eq_refl) as (Hsignals & _ & Hqueue & _).
  fold r in Hsignals, Hqueue.
  split; [exact Hsignals|]. split; [reflexivity|exact Hqueue].
Defined.

(** ** What a run never touches *)

(** X11. A run of [listen], however it ends, leaves the configuration of
    the controller as it was: the interface path, the debug flag, the
    layout, the record width and the mapping. *)
Theorem listen_keeps_configuration (timeout : Z) (env : Environment)
    (self : Controller) :
  let c := final (listen timeout env self) in
  interface c = interface self
  /\ debug c = debug self
  /\ event_definition c = event_definition self
  /\ event_format c = event_format self
  /\ event_size c = event_size self.
Proof.
  cbv zeta. unfold listen, wait_for_interface.
  destruct (wait_loop_cases (path_exists env) (Z.to_nat timeout) 0%nat self)
    as [(j & _ & _ & _ & Hw)|(_ & Hw)]; rewrite Hw; cbn [after final].
  - exact (read_loop_config (device env) (on_connect_callback self)).
  - repeat split.
Qed.

(** X12. The history is append-only: after any run of [listen] the old
    history is still there, in front, followed by at most one new label
    per record handled. *)
Theorem history_is_append_only (timeout : Z) (env : Environment)
    (self : Controller) :
  let r := listen timeout env self in
  exists added,
    event_history (final r) = event_history self ++ added
    /\ (List.length added <= handled (trace r))%nat.
Proof.
  cbv zeta. unfold listen, wait_for_interface.
  destruct (wait_loop_cases (path_exists env) (Z.to_nat timeout) 0%nat self)
    as [(j & _ & _ & _ & Hw)|(_ & Hw)]; rewrite Hw.
  - destruct (read_loop_history (device env) (on_connect_callback self))
      as (added & Hhist & Hlen & _).
    exists added. cbn [after final trace]. split; [exact Hhist|].
    unfold handled in *. rewrite count_app.
    destruct (gate_trace_counts j) as (Hgate & _). unfold handled in Hgate.
    rewrite Hgate. exact Hlen.
  - exists []. cbn. rewrite app_nil_r. split; [reflexivity|lia].
Qed.

(** ** The gate with no time to wait *)

(** X13. With a timeout of zero or less the gate does not poll and does
    not sleep: [listen] clears the connected flag and returns at once,
    whether or not the device is there. *)
Theorem nonpositive_timeout_never_polls (timeout : Z) (env : Environment)
    (self : Controller) :
  timeout <= 0 ->
  listen timeout env self
  = {| result := Returned;
       final := on_disconnect_callback self;
       trace := [] |}.
Proof.
  intros Htimeout. unfold listen, wait_for_interface.
  replace (Z.to_nat timeout) with 0%nat by lia. reflexivity.
Qed.

Lemma nonpositive_timeout_never_polls_witness :
  path_exists end_of_stream_env 0 = true
  /\ listen (-5) end_of_stream_env sample_controller
     = {| result := Returned;
          final := on_disconnect_callback sample_controller;
          trace := [] |}.
Proof.
  split; [reflexivity|].
  apply (nonpositive_timeout_never_polls (-5) end_of_stream_env
           sample_controller).
  lia.
Defined.

(** ** Stopping, interrupting, tearing *)

(** X14. Called on a controller whose stop flag is set, [listen] handles
    nothing, whatever the device delivers: it reads at most once, returns
    normally, and leaves the snapshot, the history and the queue as they
    were. *)
Theorem listen_when_stopped (timeout : Z) (env : Environment)
    (self : Controller) :
  stop self = true ->
  let r := listen timeout env self in
  result r = Returned
  /\ handled (trace r) = 0%nat
  /\ (count is_read (trace r) <= 1)%nat
  /\ state (final r) = state self
  /\ event_history (final r) = event_history self
  /\ _state_queue (final r) = _state_queue self.
Proof.
  intros Hstop. cbv zeta. unfold listen, wait_for_interface.
  destruct (wait_loop_cases (path_exists env) (Z.to_nat timeout) 0%nat self)
    as [(j & _ & _ & _ & Hw)|(_ & Hw)]; rewrite Hw.
  - destruct (read_loop_stopped (device env) (on_connect_callback self)
                Hstop) as (Hres & Hh & Hr & _ & Hstate & Hhist & Hq).
    destruct (run_counts j [] []
                (trace (read_loop (device env) (on_connect_callback self)))
                eq_refl) as (Hch & _ & Hcr).
    cbn [records_trace List.length Nat.add] in Hch, Hcr.
    rewrite app_nil_r in Hch, Hcr.
    cbn [after result final trace]. rewrite Hch, Hcr.
    repeat split; assumption.
  - cbn [result final trace]. unfold handled.
    rewrite !count_failed_polls. repeat split. cbn. lia.
Qed.

Lemma listen_when_stopped_witness :
  let r := listen default_timeout end_of_stream_env stopped_controller in
  stop stopped_controller = true
  /\ result r = Returned
  /\ handled (trace r) = 0%nat
  /\ event_history (final r) = [].
Proof.
  split; [reflexivity|].
  destruct (listen_when_stopped default_timeout end_of_stream_env
              stopped_controller eq_refl) as (Hres & Hh & _ & _ & Hhist & _).
  exact (conj Hres (conj Hh Hhist)).
Defined.

(** X15. A stop request from another thread ends the loop within one
    read: the records read before the request are all handled, the read
    that is under way completes, and nothing read after the request is
    handled. *)
Theorem stop_request_ends_loop (timeout : Z) (env : Environment)
    (self : Controller) (recs : list (list byte))
    (rest : list device_event) :
  (exists k, (k < Z.to_nat timeout)%nat /\ path_exists env k = true) ->
  layout_ok self ->
  stop self = false ->
  Forall (fun bs => List.length bs = event_size self) recs ->
  device env = map Bytes recs ++ StopRequest :: rest ->
  let r := listen timeout env self in
  result r = Returned
  /\ handled (trace r) = List.length recs
  /\ (count is_read (trace r) <= List.length recs + 1)%nat
  /\ stop (final r) = true.
Proof.
  intros Hgate Hlayout Hstop Hfull Hdev. cbv zeta.
  destruct (listen_found timeout env self Hgate) as (j & _ & ->).
  rewrite Hdev.
  destruct (read_loop_full_records recs (StopRequest :: rest)
              (on_connect_callback self) Hlayout Hstop Hfull)
    as (evs & Hdec & Hrun & _).
  cbv zeta in Hrun. rewrite Hrun, after_after. cbn [read_loop].
  destruct (read_loop_stopped rest
              (stop_listening
                 (fold_left process_record evs (on_connect_callback self)))
              eq_refl) as (Hres & Hh & Hr & Hs & _).
  cbn [after result final trace].
  destruct (run_counts j recs evs
              (trace (read_loop rest
                        (stop_listening
                           (fold_left process_record evs
                              (on_connect_callback self)))))
              (Forall2_length Hdec)) as (Hch & _ & Hcr).
  rewrite Hch, Hcr, Hh. repeat split; try assumption; lia.
Qed.

Lemma stop_request_ends_loop_witness :
  let r := listen default_timeout stop_request_env sample_controller in
  result r = Returned
  /\ handled (trace r) = 2%nat
  /\ (count is_read (trace r) <= 3)%nat
  /\ stop (final r) = true.
Proof.
  assert (Hgate : exists k, (k < Z.to_nat default_timeout)%nat
                            /\ path_exists stop_request_env k = true).
  { exists 0%nat. split; [cbn; lia|reflexivity]. }
  assert (Hlayout : layout_ok sample_controller).
  { split; [reflexivity|cbn; lia]. }
  assert (Hfull : Forall (fun bs => List.length bs
                                    = event_size sample_controller)
                    [circle_pressed_record; circle_released_record]).
  { repeat constructor. }
  exact (stop_request_ends_loop default_timeout stop_request_env
           sample_controller
           [circle_pressed_record; circle_released_record]
           [Bytes x_pressed_record; Bytes []]
           Hgate Hlayout eq_refl Hfull eq_refl).
Defined.

(** X16. A keyboard interrupt while the loop waits in a read does not
    leave [listen] as an exception: the handler clears the connected flag
    and sets the stop flag, and [listen] returns normally, having handled
    every record read before the interrupt and none after it. *)
Theorem keyboard_interrupt_disconnects (timeout : Z) (env : Environment)
    (self : Controller) (recs : list (list byte))
    (rest : list device_event) :
  (exists k, (k < Z.to_nat timeout)%nat /\ path_exists env k = true) ->
  layout_ok self ->
  stop self = false ->
  Forall (fun bs => List.length bs = event_size self) recs ->
  device env = map Bytes recs ++ KeyboardInterrupt :: rest ->
  let r := listen timeout env self in
  result r = Returned
  /\ is_connected (final r) = false
  /\ stop (final r) = true
  /\ handled (trace r) = List.length recs
  /\ signals (trace r) = List.length recs.
Proof.
  intros Hgate Hlayout Hstop Hfull Hdev. cbv zeta.
  destruct (listen_found timeout env self Hgate) as (j & _ & ->).
  rewrite Hdev.
  destruct (read_loop_full_records recs (KeyboardInterrupt :: rest)
              (on_connect_callback self) Hlayout Hstop Hfull)
    as (evs & Hdec & Hrun & _).
  cbv zeta in Hrun. rewrite Hrun, after_after. cbn [read_loop].
  cbn [after result final trace].
  destruct (run_counts j recs evs [] (Forall2_length Hdec))
    as (Hch & Hcs & _).
  rewrite Hch, Hcs. cbn. repeat split; lia.
Qed.

Lemma keyboard_interrupt_disconnects_witness :
  let r := listen default_timeout interrupt_env sample_controller in
  result r = Returned
  /\ is_connected (final r) = false
  /\ stop (final r) = true
  /\ handled (trace r) = 2%nat
  /\ signals (trace r) = 2%nat.
Proof.
  assert (Hgate : exists k, (k < Z.to_nat default_timeout)%nat
                            /\ path_exists interrupt_env k = true).
  { exists 0%nat. split; [cbn; lia|reflexivity]. }
  assert (Hlayout : layout_ok sample_controller).
  { split; [reflexivity|cbn; lia]. }
  assert (Hfull : Forall (fun bs => List.length bs
                                    = event_size sample_controller)
                    [circle_pressed_record; circle_released_record]).
  { repeat constructor. }
  exact (keyboard_interrupt_disconnects default_timeout interrupt_env
           sample_controller
           [circle_pressed_record; circle_released_record]
           [Bytes x_pressed_record]
           Hgate Hlayout eq_refl Hfull eq_refl).
Defined.

(** X17. A read that is neither empty nor of the full width, after any
    number of full records, ends [listen] with [struct.error]: the records
    before it were handled and signalled, the torn one is not, and the
    connected flag is still true. *)
Theorem torn_read_ends_in_struct_error (timeout : Z) (env : Environment)
    (self : Controller) (recs : list (list byte)) (torn : list byte)
    (rest : list device_event) :
  (exists k, (k < Z.to_nat timeout)%nat /\ path_exists env k = true) ->
  layout_ok self ->
  stop self = false ->
  Forall (fun bs => List.length bs = event_size self) recs ->
  device env = map Bytes recs ++ Bytes torn :: rest ->
  is_empty torn = false ->
  List.length torn <> event_size self ->
  let r := listen timeout env self in
  result r = Raised StructError
  /\ handled (trace r) = List.length recs
  /\ signals (trace r) = List.length recs
  /\ is_connected (final r) = true.
Proof.
  intros Hgate Hlayout Hstop Hfull Hdev Hnonempty Hwidth. cbv zeta.
  destruct (listen_found timeout env self Hgate) as (j & _ & ->).
  rewrite Hdev.
  destruct (read_loop_full_records recs (Bytes torn :: rest)
              (on_connect_callback self) Hlayout Hstop Hfull)
    as (evs & Hdec & Hrun & Hlayout' & Hstop' & Hconn' & Hsize').
  cbv zeta in Hrun, Hlayout', Hstop', Hconn', Hsize'.
  rewrite Hrun, after_after.
  set (self' := fold_left process_record evs (on_connect_callback self))
    in *.
  assert (Hraise : read_loop (Bytes torn :: rest) self'
                   = {| result := Raised StructError; final := self';
                        trace := [Read torn] |}).
  { cbn [read_loop]. rewrite Hstop', Hnonempty. cbn [negb andb].
    unfold _unpack_event, Struct.unpack.
    destruct (Nat.eqb_spec (List.length torn)
                (Struct.calcsize (event_format self'))) as [Heq|_];
      [|reflexivity].
    exfalso. apply Hwidth. destruct Hlayout' as [Hcalc _].
    cbn in Hsize'. congruence. }
  rewrite Hraise.
  cbn [after result final trace].
  destruct (run_counts j recs evs [Read torn] (Forall2_length Hdec))
    as (Hch & Hcs & _).
  rewrite Hch, Hcs, Hconn'. cbn. repeat split; lia.
Qed.

Lemma torn_read_ends_in_struct_error_witness :
  let r := listen default_timeout torn_read_env sample_controller in
  result r = Raised StructError
  /\ handled (trace r) = 3%nat
  /\ signals (trace r) = 3%nat
  /\ is_connected (final r) = true.
Proof.
  assert (Hgate : exists k, (k < Z.to_nat default_timeout)%nat
                            /\ path_exists torn_read_env k = true).
  { exists 0%nat. split; [cbn; lia|reflexivity]. }
  assert (Hlayout : layout_ok sample_controller).
  { split; [reflexivity|cbn; lia]. }
  assert (Hfull : Forall (fun bs => List.length bs
                                    = event_size sample_controller)
                    [circle_pressed_record; circle_released_record;
                     x_pressed_record]).
  { repeat constructor. }
  assert (Hwidth : List.length [x01; x01; x01]
                   <> event_size sample_controller) by discriminate.
  exact (torn_read_ends_in_struct_error default_timeout torn_read_env
           sample_controller
           [circle_pressed_record; circle_released_record;
            x_pressed_record]
           [x01; x01; x01] [] Hgate Hlayout eq_refl Hfull eq_refl eq_refl
           Hwidth).
Defined.

(** ** Order *)

(** X18. Records are handled in the order they are read, none dropped and
    none repeated: after full records and a read of no bytes, the events
    handed to [_handle_event] are the unpacked records in order, and the
    controller [listen] ends with is the connected controller taken
    through the loop body once per record, first to last. *)
Theorem records_handled_in_order (timeout : Z) (env : Environment)
    (self : Controller) (recs : list (list byte))
    (rest : list device_event) :
  (exists k, (k < Z.to_nat timeout)%nat /\ path_exists env k = true) ->
  layout_ok self ->
  stop self = false ->
  Forall (fun bs => List.length bs = event_size self) recs ->
  device env = map Bytes recs ++ rest ->
  zero_read_next rest = true ->
  let r := listen timeout env self in
  exists evs,
    Forall2 (fun bs ev => _unpack_event self bs = inr ev) recs evs
    /\ handled_events (trace r) = evs
    /\ final r = fold_left process_record evs (on_connect_callback self).
Proof.
  intros Hgate Hlayout Hstop Hfull Hdev Hzero. cbv zeta.
  destruct (listen_found timeout env self Hgate) as (j & _ & ->).
  rewrite Hdev.
  destruct (read_loop_full_records recs rest (on_connect_callback self)
              Hlayout Hstop Hfull) as (evs & Hdec & Hrun & _).
  cbv zeta in Hrun. rewrite Hrun, after_after.
  destruct (read_loop_at_zero_read rest
              (fold_left process_record evs (on_connect_callback self))
              Hzero) as (bs & ->).
  exists evs. split; [exact Hdec|]. cbn [after result final trace].
  split; [|reflexivity].
  destruct (records_trace_counts recs evs (Forall2_length Hdec))
    as (_ & _ & _ & Hevs).
  rewrite (handled_events_app (_ ++ records_trace recs evs)).
  rewrite (handled_events_app _ (records_trace recs evs)).
  rewrite handled_events_gate, Hevs. cbn. apply app_nil_r.
Qed.

Lemma records_handled_in_order_witness :
  exists evs,
    Forall2 (fun bs ev => _unpack_event sample_controller bs = inr ev)
      [circle_pressed_record; circle_released_record; x_pressed_record] evs
    /\ handled_events
         (trace (listen default_timeout end_of_stream_env sample_controller))
       = evs
    /\ final (listen default_timeout end_of_stream_env sample_controller)
       = fold_left process_record evs
           (on_connect_callback sample_controller).
Proof.
  assert (Hgate : exists k, (k < Z.to_nat default_timeout)%nat
                            /\ path_exists end_of_stream_env k = true).
  { exists 0%nat. split; [cbn; lia|reflexivity]. }
  assert (Hlayout : layout_ok sample_controller).
  { split; [reflexivity|cbn; lia]. }
  assert (Hfull : Forall (fun bs => List.length bs
                                    = event_size sample_controller)
                    [circle_pressed_record; circle_released_record;
                     x_pressed_record]).
  { repeat constructor. }
  exact (records_handled_in_order default_timeout end_of_stream_env
           sample_controller
           [circle_pressed_record; circle_released_record;
            x_pressed_record]
           [Bytes []] Hgate Hlayout eq_refl Hfull eq_refl eq_refl).
Defined.

(** ** The connected flag *)

(** X19. Once the gate has found the device, the connected flag stays
    true to the end of the run unless a keyboard interrupt arrives: no
    end of stream, stop request or [struct.error] clears it. *)
Theorem connected_until_interrupted (timeout : Z) (env : Environment)
    (self : Controller) :
  (exists k, (k < Z.to_nat timeout)%nat /\ path_exists env k = true) ->
  forallb (fun d => negb (is_interrupt d)) (device env) = true ->
  is_connected (final (listen timeout env self)) = true.
Proof.
  intros Hgate Hclean.
  destruct (listen_found timeout env self Hgate) as (j & _ & ->).
  cbn [after final].
  now rewrite (read_loop_connected (device env) (on_connect_callback self)).
Qed.

Lemma connected_until_interrupted_witness :
  result (listen default_timeout torn_read_env sample_controller)
  = Raised StructError
  /\ is_connected (final (listen default_timeout torn_read_env
                            sample_controller)) = true.
Proof.
  split; [reflexivity|].
  apply connected_until_interrupted; [|reflexivity].
  exists 0%nat. split; [cbn; lia|reflexivity].
Defined.

(** ** start_listening *)

(** X20. [start_listening] clears the stop flag before the thread runs:
    also on a controller that was stopped, the thread handles every full
    record up to the read of no bytes. *)
Theorem start_listening_clears_stop (timeout : Z) (env : Environment)
    (self : Controller) (recs : list (list byte))
    (rest : list device_event) :
  (exists k, (k < Z.to_nat timeout)%nat /\ path_exists env k = true) ->
  layout_ok self ->
  Forall (fun bs => List.length bs = event_size self) recs ->
  device env = map Bytes recs ++ rest ->
  zero_read_next rest = true ->
  let r := start_listening timeout env self in
  result r = Returned
  /\ stop (final r) = false
  /\ handled (trace r) = List.length recs.
Proof.
  intros Hgate Hlayout Hfull Hdev Hzero. cbv zeta. unfold start_listening.
  destruct (listen_found timeout env (set_stop false self) Hgate)
    as (j & _ & ->).
  rewrite Hdev.
  destruct (read_loop_full_records recs rest
              (on_connect_callback (set_stop false self))
              Hlayout eq_refl Hfull)
    as (evs & Hdec & Hrun & _ & Hstop' & _).
  cbv zeta in Hrun, Hstop'. rewrite Hrun, after_after.
  destruct (read_loop_at_zero_read rest
              (fold_left process_record evs
                 (on_connect_callback (set_stop false self))) Hzero)
    as (bs & ->).
  cbn [after result final trace].
  destruct (run_counts j recs evs [Read bs] (Forall2_length Hdec))
    as (Hch & _).
  rewrite Hch. cbn. repeat split; [exact Hstop'|lia].
Qed.

Lemma start_listening_clears_stop_witness :
  handled (trace (listen default_timeout end_of_stream_env
                    stopped_controller)) = 0%nat
  /\ handled (trace (start_listening default_timeout end_of_stream_env
                       stopped_controller)) = 3%nat.
Proof.
  split; [reflexivity|].
  assert (Hgate : exists k, (k < Z.to_nat default_timeout)%nat
                            /\ path_exists end_of_stream_env k = true).
  { exists 0%nat. split; [cbn; lia|reflexivity]. }
  assert (Hlayout : layout_ok stopped_controller).
  { split; [reflexivity|cbn; lia]. }
  assert (Hfull : Forall (fun bs => List.length bs
                                    = event_size stopped_controller)
                    [circle_pressed_record; circle_released_record;
                     x_pressed_record]).
  { repeat constructor. }
  exact (proj2 (proj2
           (start_listening_clears_stop default_timeout end_of_stream_env
              stopped_controller
              [circle_pressed_record; circle_released_record;
               x_pressed_record]
              [Bytes []] Hgate Hlayout Hfull eq_refl eq_refl))).
Defined.

(** ** The update generator *)

Lemma state_updates_spec (rounds : nat) :
  forall self : Controller,
  let out := state_updates rounds self in
  Forall (fun d => d = to_dict (state self)) (fst out)
  /\ _state_queue (snd out)
     = skipn (List.length (fst out)) (_state_queue self)
  /\ state (snd out) = state self
  /\ stop (snd out) = stop self
  /\ (stop self = true -> out = ([], self))
  /\ (stop self = false ->
      List.length (fst out)
      = Nat.min rounds (List.length (_state_queue self))).
Proof.
  induction rounds as [|rounds IH]; intros self; cbn [state_updates].
  - cbn. split; [constructor|]. repeat split.
  - unfold state_updates_step.
    destruct (stop self) eqn:Hstop.
    + cbn. split; [constructor|]. repeat split; congruence.
    + destruct (_state_queue self) as [|item queue] eqn:Hqueue.
      * destruct (IH self) as (Hall & Hq & Hstate & Hs & _ & Hlen).
        rewrite Hqueue in Hq, Hlen.
        split; [exact Hall|]. split; [exact Hq|]. split; [exact Hstate|].
        split; [congruence|]. split; [discriminate|].
        intros _. rewrite (Hlen Hstop). cbn. now rewrite Nat.min_0_r.
      * destruct (IH (set_state_queue queue self))
          as (Hall & Hq & Hstate & Hs & _ & Hlen).
        destruct (state_updates rounds (set_state_queue queue self))
          as [ds c].
        cbn in *.
        split; [constructor; [reflexivity|exact Hall]|].
        split; [exact Hq|]. split; [exact Hstate|].
        split; [congruence|]. split; [discriminate|].
        intros _. now rewrite (Hlen Hstop).
Qed.

(** The generator hands back the controller it was given, with a shorter
    queue and nothing else changed. *)
Lemma state_updates_frame (rounds : nat) :
  forall self : Controller,
  snd (state_updates rounds self)
  = set_state_queue (_state_queue (snd (state_updates rounds self))) self.
Proof.
  induction rounds as [|rounds IH]; intros self; cbn [state_updates].
  - destruct self; reflexivity.
  - unfold state_updates_step. destruct (stop self).
    + destruct self; reflexivity.
    + destruct (_state_queue self) as [|item queue]; [exact (IH self)|].
      specialize (IH (set_state_queue queue self)).
      destruct (state_updates rounds (set_state_queue queue self))
        as [ds c].
      cbn [snd] in *. rewrite IH at 1. reflexivity.
Qed.

(** X21. The generator yields at most one dictionary per signal waiting on
    the queue, takes the signals off the queue oldest first, and every
    dictionary it yields is the snapshot as it is now, not as it was when
    the signal was put.  It changes nothing but the queue: the controller
    afterwards is the controller before with the signals taken removed
    from the front of the queue, so the snapshot, the history, the stop
    and connected flags and the configuration are all as they were.  With
    the stop flag set it yields nothing; with the flag clear and enough
    turns it drains the queue. *)
Theorem state_updates_drains_queue (rounds : nat) (self : Controller) :
  let out := state_updates rounds self in
  (List.length (fst out) <= List.length (_state_queue self))%nat
  /\ Forall (fun d => d = get_current_state self) (fst out)
  /\ _state_queue (snd out)
     = skipn (List.length (fst out)) (_state_queue self)
  /\ state (snd out) = state self
  /\ snd out
     = set_state_queue (skipn (List.length (fst out)) (_state_queue self))
         self
  /\ (event_history (snd out) = event_history self
      /\ stop (snd out) = stop self
      /\ is_connected (snd out) = is_connected self
      /\ interface (snd out) = interface self
      /\ debug (snd out) = debug self
      /\ event_format (snd out) = event_format self
      /\ event_definition (snd out) = event_definition self
      /\ event_size (snd out) = event_size self)
  /\ (stop self = true -> out = ([], self))
  /\ (stop self = false ->
      (List.length (_state_queue self) <= rounds)%nat ->
      List.length (fst out) = List.length (_state_queue self)
      /\ _state_queue (snd out) = []).
Proof.
  cbv zeta.
  destruct (state_updates_spec rounds self)
    as (Hall & Hq & Hstate & _ & Hstopped & Hlen).
  cbv zeta in Hall, Hq, Hstate, Hstopped, Hlen.
  pose proof (state_updates_frame rounds self) as Hframe.
  rewrite Hq in Hframe.
  split; [|split; [exact Hall|split; [exact Hq|split; [exact Hstate|
    split; [exact Hframe|split; [|split; [exact Hstopped|]]]]]]].
  - destruct (stop self).
    + rewrite (Hstopped eq_refl). cbn. lia.
    + rewrite (Hlen eq_refl). lia.
  - rewrite Hframe. cbn. repeat split.
  - intros Hstop Hrounds. rewrite Hq, (Hlen Hstop).
    rewrite Nat.min_r by exact Hrounds. split; [reflexivity|].
    apply skipn_all.
Qed.

Lemma state_updates_drains_queue_witness :
  let waiting := final (listen default_timeout end_of_stream_env
                          sample_controller) in
  stop waiting = false
  /\ List.length (_state_queue waiting) = 3%nat
  /\ List.length (fst (state_updates 10 waiting)) = 3%nat
  /\ _state_queue (snd (state_updates 10 waiting)) = [].
Proof.
  intros waiting. split; [reflexivity|]. split; [reflexivity|].
  destruct (state_updates_drains_queue 10 waiting)
    as (_ & _ & _ & _ & _ & _ & _ & Hdrain).
  assert (Hrounds : (List.length (_state_queue waiting) <= 10)%nat)
    by (vm_compute; lia).
  destruct (Hdrain eq_refl Hrounds) as [Hlen Hempty].
  split; [rewrite Hlen; reflexivity|exact Hempty].
Defined.

Lemma listen_queue (timeout : Z) (env : Environment) (self : Controller) :
  let r := listen timeout env self in
  _state_queue (final r)
  = _state_queue self ++ repeat true (handled (trace r)).
Proof.
  cbv zeta. unfold listen, wait_for_interface.
  destruct (wait_loop_cases (path_exists env) (Z.to_nat timeout) 0%nat self)
    as [(j & _ & _ & _ & Hw)|(_ & Hw)]; rewrite Hw.
  - destruct (read_loop_signals (device env) (on_connect_callback self))
      as (_ & _ & Hqueue).
    cbn [after final trace]. rewrite Hqueue. unfold handled.
    destruct (gate_trace_counts j) as (Hgate & _). unfold handled in Hgate.
    now rewrite count_app, Hgate.
  - cbn [final trace]. unfold handled. rewrite count_failed_polls. cbn.
    now rewrite app_nil_r.
Qed.

(** X22. A consumer that starts on an empty queue and only reads after
    the run of [listen] is over receives one update per record handled,
    and every one of them is the final snapshot: the updates carry no
    intermediate state. *)
Theorem updates_after_listen (timeout : Z) (env : Environment)
    (self : Controller) (rounds : nat) :
  let r := listen timeout env self in
  _state_queue self = [] ->
  stop (final r) = false ->
  (handled (trace r) <= rounds)%nat ->
  fst (state_updates rounds (final r))
  = repeat (get_current_state (final r)) (handled (trace r))
  /\ _state_queue (snd (state_updates rounds (final r))) = [].
Proof.
  intros r Hempty Hstop Hrounds.
  pose proof (listen_queue timeout env self) as Hqueue.
  cbv zeta in Hqueue. fold r in Hqueue. rewrite Hempty in Hqueue.
  cbn [app] in Hqueue.
  destruct (state_updates_spec rounds (final r))
    as (Hall & Hq & _ & _ & _ & Hlen).
  cbv zeta in Hall, Hq, Hlen. specialize (Hlen Hstop).
  rewrite Hqueue in Hq. rewrite Hqueue, repeat_length in Hlen.
  rewrite Nat.min_r in Hlen by exact Hrounds. split.
  - rewrite <- Hlen. apply Forall_eq_repeat.
    eapply Forall_impl; [|exact Hall]. intros d ->. reflexivity.
  - rewrite Hq, Hlen. rewrite <- (repeat_length true (handled (trace r))) at 1.
    apply skipn_all.
Qed.

Lemma updates_after_listen_witness :
  let r := listen default_timeout end_of_stream_env sample_controller in
  handled (trace r) = 3%nat
  /\ fst (state_updates 5 (final r))
     = repeat (get_current_state (final r)) (handled (trace r))
  /\ dict_get "x_button" (get_current_state (final r)) = Some (PyBool true).
Proof.
  intros r. split; [reflexivity|]. split; [|reflexivity].
  apply (updates_after_listen default_timeout end_of_stream_env
           sample_controller 5); [reflexivity|reflexivity|vm_compute; lia].
Defined.
